(** * Fraud scoring engines: a shallow embedding and its properties

    The development follows the two scoring engines of the repository:

    - [Models]: [FraudDetectionEngine] of [models.py], the engine that
      runs on trained artifacts (two predictors, Weight-of-Evidence
      tables, a points scorecard and the feature list);
    - [Main]: [FallbackFraudEngine] of [main.py], the rule engine used
      when the artifacts are missing.

    Python floats are binary64, and so are the floats here: the kernel's
    primitive floats.  The clock-dependent fields of a result
    ([processing_time_ms], [timestamp]) are left out of [ScoreResult]. *)

From Stdlib Require Import ZArith Uint63 Floats.PrimFloat Floats.FloatOps Floats.SpecFloat.
From Stdlib Require Floats.FloatAxioms.
From stdpp Require Import gmap strings list.

Set Warnings "-inexact-float".
Local Open Scope Z_scope.

(** ** Python values *)

Module Py.

(** Exceptions that the modelled code can raise.  [ModelError] stands for
    whatever a predictor raises during inference. *)
Inductive exn :=
| AttributeError
| TypeError
| ValueError
| OverflowError
| IndexError
| ModelError.

Inductive result (A : Type) :=
| Ok (a : A)
| Raise (e : exn).
Arguments Ok {A} a.
Arguments Raise {A} e.

#[global] Instance result_ret : MRet result := fun _ a => Ok a.
#[global] Instance result_bind : MBind result := fun _ _ f m =>
  match m with
  | Ok a => f a
  | Raise e => Raise e
  end.

Definition is_Ok {A} (r : result A) : Prop := exists a, r = Ok a.
Definition is_Raise {A} (r : result A) : Prop := exists e, r = Raise e.

(** [sub in s] on [str]. *)
Fixpoint str_contains (sub s : string) : bool :=
  String.prefix sub s ||
  match s with
  | EmptyString => false
  | String _ s' => str_contains sub s'
  end.

(** [s.replace(old, new)] for a non-empty [old]: occurrences are replaced
    from the left and do not overlap; [skip] counts the characters of a
    replaced occurrence still to be dropped. *)
Fixpoint str_replace_from (old new : string) (skip : nat) (s : string) : string :=
  match s with
  | EmptyString => EmptyString
  | String c s' =>
      match skip with
      | S k => str_replace_from old new k s'
      | O =>
          if String.prefix old s
          then String.append new (str_replace_from old new (Nat.pred (String.length old)) s')
          else String c (str_replace_from old new O s')
      end
  end.

Definition str_replace (old new s : string) : string := str_replace_from old new O s.

(** [x in [v1, v2, ...]] and [x == v] where [x] is the outcome of
    [dict.get(key)]: [None] when the key is absent, and [None] is no
    string. *)
Definition in_list (x : option string) (l : list string) : bool :=
  match x with
  | Some s => existsb (String.eqb s) l
  | None => false
  end.

Definition eq_str (x : option string) (v : string) : bool :=
  match x with
  | Some s => String.eqb s v
  | None => false
  end.

(** A [dict] with [str] keys, in insertion order: assigning to a key that
    is there keeps its place. *)
Definition dict (V : Type) := list (string * V).

Fixpoint dict_set {V} (k : string) (v : V) (d : dict V) : dict V :=
  match d with
  | [] => [(k, v)]
  | (k', v') :: d' =>
      if String.eqb k' k then (k', v) :: d' else (k', v') :: dict_set k v d'
  end.

Fixpoint dict_get {V} (k : string) (d : dict V) : option V :=
  match d with
  | [] => None
  | (k', v') :: d' => if String.eqb k' k then Some v' else dict_get k d'
  end.

Definition dict_keys {V} (d : dict V) : list string := map fst d.

(** *** Floats *)

Definition nan : float := PrimFloat.nan.

(** Builtin [max(a, b)] and [min(a, b)]: the first argument stays unless
    the second is strictly beyond it. *)
Definition py_max (a b : float) : float := if PrimFloat.ltb a b then b else a.
Definition py_min (a b : float) : float := if PrimFloat.ltb b a then b else a.

(** The float of an integer (an [int64] seen as binary64). *)
Definition float_of_Z (z : Z) : float :=
  let a := PrimFloat.of_uint63 (Uint63.of_Z (Z.abs z)) in
  if z <? 0 then PrimFloat.opp a else a.

(** [int(x)] on a float: truncation toward zero; NaN and the infinities
    raise. *)
Definition py_int (x : float) : result Z :=
  match Prim2SF x with
  | S754_zero _ => Ok 0
  | S754_finite s m e =>
      let a := Z.shiftl (Z.pos m) e in
      Ok (if s then - a else a)
  | S754_infinity _ => Raise OverflowError
  | S754_nan => Raise ValueError
  end.

(** The integer nearest to [n / d] for [0 <= n] and [0 < d], ties to
    even. *)
Definition round_half_even (n d : Z) : Z :=
  let q := n / d in
  match 2 * (n mod d) ?= d with
  | Lt => q
  | Gt => q + 1
  | Eq => if Z.even q then q else q + 1
  end.

(** [round(x, 3)]: the exact binary value of [x] is rounded to the
    nearest multiple of 1/1000, ties to even, and the double nearest to
    that decimal is returned (the division is correctly rounded, and its
    operands are exact below 2^53 thousandths).  Zeros, infinities, NaN
    and integral values come back unchanged. *)
Definition py_round3 (x : float) : float :=
  match Prim2SF x with
  | S754_finite s m e =>
      if 0 <=? e then x
      else
        let k := round_half_even (Z.pos m * 1000) (2 ^ (- e)) in
        let r := PrimFloat.div (float_of_Z k) (float_of_Z 1000) in
        if s then PrimFloat.opp r else r
  | _ => x
  end.

End Py.

Import Py.

(** ** The result of scoring one claim *)

(** The dictionary returned by both [calculate_fraud_score] methods. *)
Record ScoreResult := mkScoreResult {
  fraud_probability : float;
  risk_score : Z;
  risk_level : string;
  confidence : string;
  key_risk_factors : list string;
  scorecard_breakdown : dict Z;
  business_recommendation : string;
  model_version : string
}.

(** ** main.py: the fallback engine *)

Module Main.

(** [FallbackFraudEngine.__init__] *)
Definition base_score : Z := 650.
Definition base_fraud_rate : float := 0.035%float.

Record RiskWeights := {
  urgent_claim : float;
  complex_policy : float;
  premium_vehicle : float;
  young_driver : float;
  luxury_price : float;
  rural_area : float
}.

Definition risk_weights : RiskWeights := {|
  urgent_claim := 0.18%float;
  complex_policy := 0.09%float;
  premium_vehicle := 0.12%float;
  young_driver := 0.07%float;
  luxury_price := 0.08%float;
  rural_area := 0.05%float
|}.

(** The three locals that the business rules update. *)
Record Rules := mkRules {
  fraud_prob : float;
  risk_factors : list string;
  scorecard : dict Z
}.

(** [calculate_fraud_score], from the initialisation of the locals to
    the last business rule.  The claim is the dictionary that the method
    works on (a Pydantic model has been turned into its [dict()]). *)
Definition apply_business_rules (claim_data : gmap string string) : Rules :=
  let fraud_prob := base_fraud_rate in
  let risk_factors := @nil string in
  let scorecard := dict_set "Base Score" base_score [] in
  let '(fraud_prob, risk_factors, scorecard) :=
    if eq_str (claim_data !! "Days_Policy_Claim") "1 to 7"
    then ((fraud_prob + urgent_claim risk_weights)%float,
          risk_factors ++ ["🚨 Claim reportado muy rápidamente (1-7 días)"],
          dict_set "Claim Timing" (-25) scorecard)
    else (fraud_prob, risk_factors, dict_set "Claim Timing" 10 scorecard) in
  let '(fraud_prob, risk_factors, scorecard) :=
    if str_contains "All Perils" (default "" (claim_data !! "PolicyType"))
    then ((fraud_prob + complex_policy risk_weights)%float,
          risk_factors ++ ["🔍 Póliza All Perils (mayor complejidad)"],
          dict_set "Policy Type" (-15) scorecard)
    else (fraud_prob, risk_factors, dict_set "Policy Type" 5 scorecard) in
  let '(fraud_prob, risk_factors, scorecard) :=
    if in_list (claim_data !! "Make") ["BMW"; "Mercedes"; "Audi"]
    then ((fraud_prob + premium_vehicle risk_weights)%float,
          risk_factors ++ ["💰 Vehículo de marca premium"],
          dict_set "Vehicle Make" (-20) scorecard)
    else (fraud_prob, risk_factors, dict_set "Vehicle Make" 5 scorecard) in
  let '(fraud_prob, risk_factors, scorecard) :=
    if in_list (claim_data !! "AgeOfPolicyHolder") ["18 to 20"; "21 to 25"]
    then ((fraud_prob + young_driver risk_weights)%float,
          risk_factors ++ ["👤 Conductor joven (alto riesgo)"],
          dict_set "Driver Age" (-15) scorecard)
    else (fraud_prob, risk_factors, dict_set "Driver Age" 5 scorecard) in
  let '(fraud_prob, risk_factors, scorecard) :=
    if in_list (claim_data !! "VehiclePrice") ["60000 to 69000"; "more than 69000"]
    then ((fraud_prob + luxury_price risk_weights)%float,
          risk_factors ++ ["💎 Vehículo de alto valor"],
          dict_set "Vehicle Value" (-10) scorecard)
    else (fraud_prob, risk_factors, dict_set "Vehicle Value" 0 scorecard) in
  let '(fraud_prob, risk_factors, scorecard) :=
    if eq_str (claim_data !! "AccidentArea") "Rural"
    then ((fraud_prob + rural_area risk_weights)%float,
          risk_factors ++ ["📍 Accidente en área rural"],
          dict_set "Accident Area" (-8) scorecard)
    else (fraud_prob, risk_factors, dict_set "Accident Area" 2 scorecard) in
  mkRules fraud_prob risk_factors scorecard.

(** [min(0.95, max(0.005, fraud_prob))] *)
Definition clamp (fraud_prob : float) : float :=
  py_min 0.95%float (py_max 0.005%float fraud_prob).

(** [sum([v for k, v in scorecard.items() if k != "Base Score"])] *)
Definition points_adjustment (scorecard : dict Z) : Z :=
  foldr Z.add 0
    (map snd (filter (fun kv => negb (String.eqb (fst kv) "Base Score")) scorecard)).

(** [calculate_fraud_score], from "Calculate final metrics" on. *)
Definition final_metrics (r : Rules) : ScoreResult :=
  let fraud_prob := clamp (fraud_prob r) in
  let final_score := base_score + points_adjustment (scorecard r) in
  let '(risk_level, confidence, recommendation) :=
    if final_score <=? 580
    then ("HIGH", "High", "INVESTIGATE IMMEDIATELY - Multiple high-risk indicators")
    else if final_score <=? 620
    then ("MEDIUM", "Medium", "DETAILED REVIEW REQUIRED - Some concerning factors")
    else ("LOW", "High", "STANDARD PROCESSING - Normal risk profile") in
  {| fraud_probability := py_round3 fraud_prob;
     risk_score := final_score;
     risk_level := risk_level;
     confidence := confidence;
     key_risk_factors := take 4 (risk_factors r);
     scorecard_breakdown := scorecard r;
     business_recommendation := recommendation;
     model_version := "1.0.0-fallback" |}.

Definition calculate_fraud_score (claim_data : gmap string string) : ScoreResult :=
  final_metrics (apply_business_rules claim_data).

End Main.

(** ** The part of pandas that [models.py] uses *)

Module Pandas.

(** A cell of a column: a [str] object or a number.  Integer cells are
    carried as the binary64 of the same value; NaN is the float NaN. *)
Inductive cell :=
| Str (s : string)
| Num (x : float).

(** The values of a [Series] whose index is [RangeIndex(len)]; every
    series of [models.py] is one. *)
Definition Series := list cell.

(** A [DataFrame] over [RangeIndex(index)], its columns in order. *)
Record DataFrame := mkDataFrame {
  index : nat;
  columns : dict Series
}.

(** [pd.DataFrame()] *)
Definition empty_frame : DataFrame := mkDataFrame 0 [].

(** [pd.DataFrame([record])]: one row, one column per key. *)
Definition frame_of_record (record : gmap string string) : DataFrame :=
  mkDataFrame 1 (map (fun kv => (fst kv, [Str (snd kv)])) (map_to_list record)).

(** [key in df.columns] and [df.get(key)] *)
Definition get (df : DataFrame) (key : string) : option Series :=
  dict_get key (columns df).

(** [s.reindex(RangeIndex(n))]: labels that [s] lacks get NaN. *)
Definition reindex (n : nat) (s : Series) : Series :=
  map (fun i => default (Num nan) (s !! i)) (seq 0 n).

(** [df[key] = value] for a [Series]: a frame without index takes the
    index of a non-empty value (its columns are filled with NaN), and the
    value is aligned on the index of the frame. *)
Definition set_series (key : string) (value : Series) (df : DataFrame) : DataFrame :=
  let df :=
    if (index df =? 0)%nat && (0 <? length value)%nat
    then mkDataFrame (length value)
           (map (fun kc => (fst kc, reindex (length value) (snd kc))) (columns df))
    else df in
  mkDataFrame (index df) (dict_set key (reindex (index df) value) (columns df)).

(** [df[key] = value] for a scalar: broadcast over the index. *)
Definition set_scalar (key : string) (value : cell) (df : DataFrame) : DataFrame :=
  mkDataFrame (index df) (dict_set key (replicate (index df) value) (columns df)).

(** [s.map(mapping)] for a dict with [str] keys: NaN where the value is
    no key. *)
Definition series_map (mapping : gmap string float) (s : Series) : Series :=
  map (fun c => match c with
                | Str v => Num (default nan (mapping !! v))
                | Num _ => Num nan
                end) s.

(** [s.fillna(value)] *)
Definition fillna (value : float) (s : Series) : Series :=
  map (fun c => match c with
                | Num x => if PrimFloat.is_nan x then Num value else c
                | Str _ => c
                end) s.

(** [s == v], [s.isin(values)] and [s.str.contains(sub, na=False)] *)
Definition series_eq (s : Series) (v : string) : list bool :=
  map (fun c => match c with Str x => String.eqb x v | Num _ => false end) s.

Definition isin (s : Series) (values : list string) : list bool :=
  map (fun c => match c with Str x => existsb (String.eqb x) values | Num _ => false end) s.

Definition str_contains_na_false (s : Series) (sub : string) : list bool :=
  map (fun c => match c with Str x => str_contains sub x | Num _ => false end) s.

(** [b.astype(int)] on a boolean series *)
Definition astype_int (b : list bool) : Series :=
  map (fun x : bool => Num (if x then 1%float else 0%float)) b.

(** [s.iloc[0]] *)
Definition iloc0 (s : Series) : result cell :=
  match s with
  | c :: _ => Ok c
  | [] => Raise IndexError
  end.

End Pandas.

Import Pandas.

(** ** models.py: the engine on trained artifacts *)

Module Models.

(** The attributes that [load_models] sets on [self].  A predictor is
    the whole expression [model.predict_proba(X)[:, 1][0]]; the scorecard
    table is its rows ([Variable], [Points]). *)
Record FraudDetectionEngine := {
  logistic_model : DataFrame -> result float;
  xgb_model : DataFrame -> result float;
  woe_mappings : dict (gmap string float);
  scorecard : list (string * Z);
  base_points : float;
  feature_names : list string
}.

(** What [df.get(key, '')] evaluates to. *)
Inductive column_or_str :=
| Column (s : Series)
| Default (s : string).

Definition get_or_str (df : DataFrame) (key default : string) : column_or_str :=
  match get df key with
  | Some s => Column s
  | None => Default default
  end.

(** [(x == v).astype(int)], [x.isin(values).astype(int)] and
    [x.str.contains(sub, na=False).astype(int)]: a [str] has neither
    [isin] nor [str], and the [bool] of comparing two [str] has no
    [astype]. *)
Definition eq_astype_int (x : column_or_str) (v : string) : result Series :=
  match x with
  | Column s => Ok (astype_int (series_eq s v))
  | Default _ => Raise AttributeError
  end.

Definition isin_astype_int (x : column_or_str) (values : list string) : result Series :=
  match x with
  | Column s => Ok (astype_int (isin s values))
  | Default _ => Raise AttributeError
  end.

Definition str_contains_astype_int (x : column_or_str) (sub : string) : result Series :=
  match x with
  | Column s => Ok (astype_int (str_contains_na_false s sub))
  | Default _ => Raise AttributeError
  end.

Definition age_mapping : gmap string float :=
  list_to_map
    [("below 18", 17%float); ("16 to 17", 17%float); ("18 to 20", 19%float);
     ("21 to 25", 23%float); ("26 to 30", 28%float); ("31 to 35", 33%float);
     ("36 to 40", 38%float); ("41 to 50", 45%float); ("51 to 65", 58%float);
     ("over 65", 70%float)].

Definition price_mapping : gmap string float :=
  list_to_map
    [("less than 20000", 15000%float); ("20000 to 29000", 24500%float);
     ("30000 to 39000", 34500%float); ("40000 to 59000", 49500%float);
     ("60000 to 69000", 64500%float); ("more than 69000", 80000%float)].

Definition vehicle_age_mapping : gmap string float :=
  list_to_map
    [("new", 0%float); ("2 years", 2%float); ("3 years", 3%float);
     ("4 years", 4%float); ("5 years", 5%float); ("6 years", 6%float);
     ("7 years", 7%float); ("more than 7", 10%float)].

Definition days_mapping : gmap string float :=
  list_to_map
    [("none", 0%float); ("1 to 7", 4%float); ("8 to 15", 11%float);
     ("15 to 30", 22%float); ("more than 30", 45%float)].

(** [df.get(key, pd.Series()).map(mapping).fillna(value)] *)
Definition mapped (df : DataFrame) (key : string) (mapping : gmap string float)
    (value : float) : Series :=
  fillna value (series_map mapping (default [] (get df key))).

(** Step 1 of [prepare_features]: the four numeric columns. *)
Definition numeric_columns (df : DataFrame) : DataFrame :=
  let df := set_series "AgeOfPolicyHolder_Numeric"
              (mapped df "AgeOfPolicyHolder" age_mapping 35%float) df in
  let df := set_series "VehiclePrice_Numeric"
              (mapped df "VehiclePrice" price_mapping 35000%float) df in
  let df := set_series "AgeOfVehicle_Numeric"
              (mapped df "AgeOfVehicle" vehicle_age_mapping 5%float) df in
  let df := set_series "Days_Policy_Claim_Numeric"
              (mapped df "Days_Policy_Claim" days_mapping 30%float) df in
  df.

(** Step 2: the five business flags. *)
Definition business_columns (df : DataFrame) : result DataFrame :=
  s ← eq_astype_int (get_or_str df "Days_Policy_Claim" "") "1 to 7";
  let df := set_series "Claim_Urgency" s df in
  s ← isin_astype_int (get_or_str df "VehiclePrice" "")
        ["60000 to 69000"; "more than 69000"];
  let df := set_series "Luxury_Vehicle" s df in
  s ← isin_astype_int (get_or_str df "AgeOfPolicyHolder" "") ["18 to 20"; "21 to 25"];
  let df := set_series "Young_Driver" s df in
  s ← str_contains_astype_int (get_or_str df "PolicyType" "") "All Perils";
  let df := set_series "Complex_Policy" s df in
  s ← isin_astype_int (get_or_str df "Make" "") ["BMW"; "Mercedes"; "Audi"];
  let df := set_series "Premium_Make" s df in
  Ok df.

(** Step 3: one [_WoE] column per table whose variable is a column. *)
Definition woe_step (df : DataFrame) (item : string * gmap string float) : DataFrame :=
  match get df (fst item) with
  | Some col =>
      set_series (String.append (fst item) "_WoE")
        (fillna 0%float (series_map (snd item) col)) df
  | None => df
  end.

Definition woe_columns (self : FraudDetectionEngine) (df : DataFrame) : DataFrame :=
  fold_left woe_step (woe_mappings self) df.

(** Step 4: the frame of the expected features, in their order. *)
Definition select_step (df X : DataFrame) (feature : string) : DataFrame :=
  match get df feature with
  | Some col => set_series feature col X
  | None => set_scalar feature (Num 0%float) X
  end.

Definition select_features (self : FraudDetectionEngine) (df : DataFrame) : DataFrame :=
  fold_left (select_step df) (feature_names self) empty_frame.

Definition prepare_features (self : FraudDetectionEngine)
    (claim_data : gmap string string) : result DataFrame :=
  let df := frame_of_record claim_data in
  let df := numeric_columns df in
  df ← business_columns df;
  let df := woe_columns self df in
  Ok (select_features self df).

(** [value * points], as it is added to the float [total_points]: the
    product of a [str] and an integer is a [str], which a float cannot
    take. *)
Definition contribution_of (value : cell) (points : Z) : result float :=
  match value with
  | Num x => Ok (x * float_of_Z points)%float
  | Str _ => Raise TypeError
  end.

Fixpoint foldlM {A B} (f : B -> A -> result B) (b : B) (l : list A) : result B :=
  match l with
  | [] => Ok b
  | a :: l' => b' ← f b a; foldlM f b' l'
  end.

(** [variable.replace('_WoE', '').replace('_Numeric', '')] *)
Definition display_name (variable : string) : string :=
  str_replace "_Numeric" "" (str_replace "_WoE" "" variable).

(** The body of the loop of [calculate_scorecard_points]. *)
Definition scorecard_step (X : DataFrame) (acc : float * dict Z)
    (row : string * Z) : result (float * dict Z) :=
  let '(total_points, points_breakdown) := acc in
  let '(variable, points) := row in
  match get X variable with
  | Some col =>
      value ← iloc0 col;
      contribution ← contribution_of value points;
      let total_points := (total_points + contribution)%float in
      let display_name := display_name variable in
      if PrimFloat.ltb 0.5%float (PrimFloat.abs contribution)
      then c ← py_int contribution;
           Ok (total_points, dict_set display_name c points_breakdown)
      else Ok (total_points, points_breakdown)
  | None => Ok acc
  end.

Definition calculate_scorecard_points (self : FraudDetectionEngine)
    (X : DataFrame) : result (Z * dict Z) :=
  let total_points := base_points self in
  b ← py_int (base_points self);
  let points_breakdown := dict_set "Base Score" b [] in
  acc ← foldlM (scorecard_step X) (total_points, points_breakdown) (scorecard self);
  t ← py_int (fst acc);
  Ok (t, snd acc).

Definition identify_risk_factors (claim_data : gmap string string)
    (fraud_prob : float) : list string :=
  let risk_factors := @nil string in
  let risk_factors :=
    if eq_str (claim_data !! "Days_Policy_Claim") "1 to 7"
    then risk_factors ++ ["🚨 Claim reportado muy rápidamente (1-7 días)"]
    else risk_factors in
  let risk_factors :=
    if str_contains "All Perils" (default "" (claim_data !! "PolicyType"))
    then risk_factors ++ ["🔍 Póliza de cobertura completa (All Perils)"]
    else risk_factors in
  let risk_factors :=
    if in_list (claim_data !! "Make") ["BMW"; "Mercedes"; "Audi"]
    then risk_factors ++ ["💰 Vehículo de marca premium"]
    else risk_factors in
  let risk_factors :=
    if in_list (claim_data !! "AgeOfPolicyHolder") ["18 to 20"; "21 to 25"]
    then risk_factors ++ ["👤 Conductor joven (mayor riesgo estadístico)"]
    else risk_factors in
  let risk_factors :=
    if in_list (claim_data !! "VehiclePrice") ["60000 to 69000"; "more than 69000"]
    then risk_factors ++ ["💎 Vehículo de alto valor"]
    else risk_factors in
  let risk_factors :=
    if eq_str (claim_data !! "AccidentArea") "Rural"
    then risk_factors ++ ["📍 Accidente en área rural"]
    else risk_factors in
  let risk_factors :=
    if (length risk_factors =? 0)%nat && PrimFloat.ltb 0.3%float fraud_prob
    then risk_factors ++ ["⚠️ Combinación de factores genera riesgo elevado"]
    else risk_factors in
  take 4 risk_factors.

(** The [try] block of [calculate_fraud_score]. *)
Definition try_score (self : FraudDetectionEngine)
    (claim_data : gmap string string) : result ScoreResult :=
  X ← prepare_features self claim_data;
  fraud_prob_logistic ← logistic_model self X;
  fraud_prob_xgb ← xgb_model self X;
  let fraud_prob := (0.7 * fraud_prob_logistic + 0.3 * fraud_prob_xgb)%float in
  '(risk_score, scorecard_breakdown) ← calculate_scorecard_points self X;
  let '(risk_level, confidence, recommendation) :=
    if risk_score <=? 580
    then ("HIGH", "High",
          "INVESTIGATE IMMEDIATELY - Multiple high-risk indicators detected")
    else if risk_score <=? 620
    then ("MEDIUM", "Medium",
          "DETAILED REVIEW REQUIRED - Some concerning factors present")
    else ("LOW", "High", "STANDARD PROCESSING - Normal risk profile") in
  let risk_factors := identify_risk_factors claim_data fraud_prob in
  Ok {| fraud_probability := py_round3 fraud_prob;
        risk_score := risk_score;
        risk_level := risk_level;
        confidence := confidence;
        key_risk_factors := risk_factors;
        scorecard_breakdown := scorecard_breakdown;
        business_recommendation := recommendation;
        model_version := "1.0.0-production" |}.

(** The [except] block: the controlled error result. *)
Definition error_result : ScoreResult :=
  {| fraud_probability := 0.05%float;
     risk_score := 650;
     risk_level := "ERROR";
     confidence := "Low";
     key_risk_factors := ["❌ Error en procesamiento"];
     scorecard_breakdown := [("Error", 0)];
     business_recommendation := "MANUAL REVIEW REQUIRED - System error";
     model_version := "1.0.0-error" |}.

Definition calculate_fraud_score (self : FraudDetectionEngine)
    (claim_data : gmap string string) : ScoreResult :=
  match try_score self claim_data with
  | Ok r => r
  | Raise _ => error_result
  end.

End Models.

(** ** Vocabulary of the properties *)

Module Spec.

(** The three-tier policy, read off a result. *)
Definition level_follows_score (r : ScoreResult) : Prop :=
  (risk_level r = "HIGH" <-> risk_score r <= 580) /\
  (risk_level r = "MEDIUM" <-> 581 <= risk_score r <= 620) /\
  (risk_level r = "LOW" <-> 620 < risk_score r).

(** Two claim records with the same entry, or the same lack of one, at
    each of the given fields. *)
Definition agree_on (fields : list string) (c1 c2 : gmap string string) : Prop :=
  Forall (fun k => c1 !! k = c2 !! k) fields.

(** The values of a breakdown, and those under another key than [key]. *)
Definition sum_values (d : dict Z) : Z := foldr Z.add 0 (map snd d).

Fixpoint sum_other_values (key : string) (d : dict Z) : Z :=
  match d with
  | [] => 0
  | (k, v) :: d' =>
      if String.eqb k key then sum_other_values key d'
      else v + sum_other_values key d'
  end.

(** [s.endswith(suffix)]: [suffix] is [s] or the end of its tail. *)
Fixpoint str_endswith (suffix s : string) : bool :=
  String.eqb suffix s ||
  match s with
  | EmptyString => false
  | String _ s' => str_endswith suffix s'
  end.

(** What a claim record gives for a field, as the column of a one-row
    frame. *)
Definition raw_column (claim_data : gmap string string) (field : string) : option Series :=
  (fun v => [Str v]) <$> claim_data !! field.

(** A frame of one row: its index has one label and each of its columns
    one cell. *)
Definition one_row (df : DataFrame) : Prop :=
  index df = 1%nat /\ forall k col, get df k = Some col -> length col = 1%nat.

(** The raw fields that the business flags of [prepare_features] read,
    each with the flag derived from it. *)
Definition flag_fields : list (string * string) :=
  [("Days_Policy_Claim", "Claim_Urgency"); ("VehiclePrice", "Luxury_Vehicle");
   ("AgeOfPolicyHolder", "Young_Driver"); ("PolicyType", "Complex_Policy");
   ("Make", "Premium_Make")].

(** The fields of a claim record ([ClaimData] in [main.py],
    [categorical_vars] in [train_model.py]). *)
Definition categorical_vars : list string :=
  ["Make"; "PolicyType"; "AccidentArea"; "Sex"; "MaritalStatus"; "Month";
   "DayOfWeek"; "AgeOfPolicyHolder"; "VehiclePrice"; "AgeOfVehicle";
   "Days_Policy_Claim"].

(** The four tables of the category mapper: the field read, the column
    written, the table and the value that fills the gaps. *)
Record MapperTable := mkMapperTable {
  mt_field : string;
  mt_column : string;
  mt_mapping : gmap string float;
  mt_default : float
}.

Definition mapper_tables : list MapperTable :=
  [mkMapperTable "AgeOfPolicyHolder" "AgeOfPolicyHolder_Numeric" Models.age_mapping 35%float;
   mkMapperTable "VehiclePrice" "VehiclePrice_Numeric" Models.price_mapping 35000%float;
   mkMapperTable "AgeOfVehicle" "AgeOfVehicle_Numeric" Models.vehicle_age_mapping 5%float;
   mkMapperTable "Days_Policy_Claim" "Days_Policy_Claim_Numeric" Models.days_mapping 30%float].

(** A column of one number that is not NaN. *)
Definition number_column (s : Series) : Prop :=
  exists x, s = [Num x] /\ PrimFloat.is_nan x = false.

(** A frame that a predictor can take: one row, and in each column a
    number that is not NaN. *)
Definition numeric_row (X : DataFrame) : bool :=
  (index X =? 1)%nat &&
  forallb (fun kc => match snd kc with
                     | [Num x] => negb (PrimFloat.is_nan x)
                     | _ => false
                     end) (columns X).

(** A feature name that the feature derivation produces for a claim
    record with all its fields: a numeric column, a business flag, or
    the [_WoE] column of a field that has a table. *)
Definition derived_feature (self : Models.FraudDetectionEngine) (f : string) : Prop :=
  f ∈ map mt_column mapper_tables \/
  f ∈ map snd flag_fields \/
  exists var, var ∈ categorical_vars /\
              var ∈ dict_keys (Models.woe_mappings self) /\
              f = String.append var "_WoE".

End Spec.

Import Spec.

(** ** Sizes of binary64 numbers *)

Module Bounds.

(** A mantissa below [2 ^ k] (below 1 for a negative [k]). *)
Definition below (k : Z) (mrs : shr_record) : Prop :=
  0 <= shr_m mrs < 2 ^ Z.max k 0.

(** The exponent of a float is at most [B]: the float is a zero, or a
    finite float [m * 2 ^ e] with [e <= B]. *)
Definition sf_exponent_le (B : Z) (x : spec_float) : Prop :=
  match x with
  | S754_zero _ => True
  | S754_finite _ _ e => e <= B
  | _ => False
  end.

Definition exponent_le (B : Z) (x : float) : Prop := sf_exponent_le B (Prim2SF x).

(** A number of moderate size: neither NaN nor an infinity, and at most
    10^15 in magnitude. *)
Definition moderate (x : float) : bool :=
  PrimFloat.leb (PrimFloat.abs x) 1e15%float.

(** A column of one number of moderate size. *)
Definition moderate_column (s : Series) : Prop :=
  exists x, s = [Num x] /\ moderate x = true.

(** An engine whose numbers are of moderate size: the base points, the
    weights of the tables that are not NaN and the points of the
    scorecard are at most 10^15 in magnitude, and the scorecard has at
    most 400 rows.  Points of that size are their own float, so the
    product of a flag and its points is the same number in [int64] and
    in binary64. *)
Definition moderate_engine (self : Models.FraudDetectionEngine) : bool :=
  moderate (Models.base_points self) &&
  forallb (fun item : string * gmap string float =>
             forallb (fun kw : string * float =>
                        PrimFloat.is_nan kw.2 || moderate kw.2)
                     (map_to_list item.2))
          (Models.woe_mappings self) &&
  forallb (fun row : string * Z => Z.abs row.2 <=? 10 ^ 15) (Models.scorecard self) &&
  (length (Models.scorecard self) <=? 400)%nat.

End Bounds.

Import Bounds.

(** ** Sample inputs *)

Module Samples.

Import Models.

(** A stand-in predictor with the input check of the real ones: it
    returns its constant on a row of numbers without NaN. *)
Definition constant_model (p : float) (X : DataFrame) : result float :=
  if numeric_row X then Ok p else Raise ModelError.

Definition engine : FraudDetectionEngine := {|
  logistic_model := constant_model 0.4%float;
  xgb_model := constant_model 0.2%float;
  woe_mappings :=
    [("Make", list_to_map [("Honda", (-0.25)%float); ("BMW", 0.75%float)]);
     ("AccidentArea", list_to_map [("Urban", (-0.125)%float); ("Rural", 0.5%float)])];
  scorecard :=
    [("Make_WoE", -40); ("AccidentArea_WoE", -24);
     ("AgeOfPolicyHolder_Numeric", 1); ("Claim_Urgency", -35)];
  base_points := 560.75%float;
  feature_names :=
    ["Make_WoE"; "AccidentArea_WoE"; "AgeOfPolicyHolder_Numeric";
     "VehiclePrice_Numeric"; "AgeOfVehicle_Numeric"; "Days_Policy_Claim_Numeric";
     "Claim_Urgency"; "Luxury_Vehicle"; "Young_Driver"; "Complex_Policy";
     "Premium_Make"]
|}.

(** The test claim of [test_engine] in [models.py]. *)
Definition test_claim : gmap string string :=
  list_to_map
    [("Month", "Jun"); ("DayOfWeek", "Friday"); ("Make", "BMW");
     ("AccidentArea", "Urban"); ("Sex", "Male"); ("MaritalStatus", "Single");
     ("PolicyType", "Sport - All Perils"); ("VehiclePrice", "more than 69000");
     ("AgeOfVehicle", "2 years"); ("AgeOfPolicyHolder", "21 to 25");
     ("Days_Policy_Claim", "1 to 7")].

(** Scenario 1 of the specification: the six fields the rules read. *)
Definition scenario1 : gmap string string :=
  list_to_map
    [("Days_Policy_Claim", "1 to 7"); ("PolicyType", "Sport - All Perils");
     ("Make", "BMW"); ("AgeOfPolicyHolder", "21 to 25");
     ("VehiclePrice", "more than 69000"); ("AccidentArea", "Urban")].

(** The test claim with a make and an age bucket that no table knows. *)
Definition unknown_values : gmap string string :=
  <["Make" := "Tesla"]> (<["AgeOfPolicyHolder" := "99 to 120"]> test_claim).

(** The test claim without one of its fields. *)
Definition without (field : string) : gmap string string := delete field test_claim.

(** The sample engine with base points that are no number. *)
Definition engine_nan_base : FraudDetectionEngine := {|
  logistic_model := logistic_model engine;
  xgb_model := xgb_model engine;
  woe_mappings := woe_mappings engine;
  scorecard := scorecard engine;
  base_points := nan;
  feature_names := feature_names engine
|}.

End Samples.


(** ** models.py: the description of the engine *)

Module Info.

Import Models.

(** A value of the dictionaries that [get_model_info] builds: a string,
    or a dictionary of floats, of integers or of strings. *)
Inductive info_value :=
| IStr (s : string)
| IFloats (d : dict float)
| IInts (d : dict Z)
| IStrs (d : dict string).

(** What [self.metadata] holds besides the feature names: each key may
    be absent. *)
Record Metadata := {
  auc_logistic : option float;
  auc_xgb : option float;
  training_date : option string
}.

Definition business_flag_names : list string :=
  ["Claim_Urgency"; "Luxury_Vehicle"; "Young_Driver"; "Complex_Policy"; "Premium_Make"].

(** The three counts under ["features"]. *)
Definition total_features (self : FraudDetectionEngine) : nat :=
  length (feature_names self).

Definition woe_features (self : FraudDetectionEngine) : nat :=
  length (filter (fun f => str_contains "_WoE" f = true) (feature_names self)).

Definition business_features (self : FraudDetectionEngine) : nat :=
  length (filter (fun f => existsb (String.eqb f) business_flag_names = true)
            (feature_names self)).

(** [FraudDetectionEngine.get_model_info] on [self] and its
    [self.metadata]. *)
Definition get_model_info (self : FraudDetectionEngine) (metadata : Metadata)
    : dict info_value :=
  [("model_type", IStr "Dual Model: Logistic Regression + XGBoost");
   ("version", IStr "1.0.0");
   ("performance",
    IFloats [("logistic_auc", default 0.847%float (auc_logistic metadata));
             ("xgboost_auc", default 0.835%float (auc_xgb metadata));
             ("combined_auc", 0.847%float);
             ("precision_at_10", 0.623%float);
             ("ks_statistic", 0.412%float)]);
   ("features",
    IInts [("total_features", Z.of_nat (total_features self));
           ("woe_features", Z.of_nat (woe_features self));
           ("business_features", Z.of_nat (business_features self))]);
   ("business_impact",
    IStrs [("annual_savings", "$20M+");
           ("detection_speed", "Real-time vs 45 days");
           ("investigation_efficiency", "+70%");
           ("false_positive_reduction", "45%")]);
   ("training_info",
    IStrs [("last_updated", default "2025-07-06" (training_date metadata));
           ("training_samples", "5,000+");
           ("validation_method", "Stratified K-Fold")])].

End Info.

(** ** main.py: the request models, the choice of the engine and the
    endpoints *)

Module Api.

Import Models Info.

(** [ClaimData]: eleven strings. *)
Record ClaimData := {
  Month : string;
  DayOfWeek : string;
  Make : string;
  AccidentArea : string;
  Sex : string;
  MaritalStatus : string;
  PolicyType : string;
  VehiclePrice : string;
  AgeOfVehicle : string;
  AgeOfPolicyHolder : string;
  Days_Policy_Claim : string
}.

(** [claim_data.dict()] *)
Definition ClaimData_dict (c : ClaimData) : gmap string string :=
  list_to_map
    [("Month", Month c); ("DayOfWeek", DayOfWeek c); ("Make", Make c);
     ("AccidentArea", AccidentArea c); ("Sex", Sex c);
     ("MaritalStatus", MaritalStatus c); ("PolicyType", PolicyType c);
     ("VehiclePrice", VehiclePrice c); ("AgeOfVehicle", AgeOfVehicle c);
     ("AgeOfPolicyHolder", AgeOfPolicyHolder c);
     ("Days_Policy_Claim", Days_Policy_Claim c)].

(** The value of the module variable [fraud_engine]. *)
Inductive engine :=
| Trained (self : FraudDetectionEngine)
| Fallback.

(** [fraud_engine.calculate_fraud_score(claim_dict)] *)
Definition calculate_fraud_score (fraud_engine : engine)
    (claim_dict : gmap string string) : ScoreResult :=
  match fraud_engine with
  | Trained self => Models.calculate_fraud_score self claim_dict
  | Fallback => Main.calculate_fraud_score claim_dict
  end.

Definition required_files : list string :=
  ["logistic_model.pkl"; "xgb_model.pkl"; "woe_mappings.pkl"; "scorecard.pkl";
   "metadata.pkl"].

(** The loop that collects [missing_files]; [path_exists file] is
    [os.path.exists(os.path.join(models_path, file))]. *)
Definition missing_files (path_exists : string -> bool) : list string :=
  fold_left (fun missing file =>
               if negb (path_exists file) then missing ++ [file] else missing)
            required_files [].

(** The initialisation of [fraud_engine]; [load] is the outcome of
    [FraudDetectionEngine(models_path=models_path)], evaluated only when
    no file is missing. *)
Definition initialize (ENGINE_AVAILABLE : bool) (path_exists : string -> bool)
    (load : result FraudDetectionEngine) : engine :=
  if ENGINE_AVAILABLE then
    match missing_files path_exists with
    | _ :: _ => Fallback
    | [] =>
        match load with
        | Ok self => Trained self
        | Raise _ => Fallback
        end
    end
  else Fallback.

(** [predict_fraud]: the body of the endpoint; the [FraudScore] built
    from the result takes its fields as they are. *)
Definition predict_fraud (fraud_engine : engine) (claim_data : ClaimData) : ScoreResult :=
  let claim_dict := ClaimData_dict claim_data in
  calculate_fraud_score fraud_engine claim_dict.

(** [BatchFraudScores], without the processing time. *)
Record BatchFraudScores := {
  results : list ScoreResult;
  total_processed : nat;
  high_risk_count : Z
}.

(** The body of the loop of [predict_fraud_batch], on the two locals
    [results] and [high_risk_count]. *)
Definition batch_step (fraud_engine : engine) (acc : list ScoreResult * Z)
    (claim : ClaimData) : list ScoreResult * Z :=
  let '(results, high_risk_count) := acc in
  let claim_dict := ClaimData_dict claim in
  let result := calculate_fraud_score fraud_engine claim_dict in
  let results := results ++ [result] in
  let high_risk_count :=
    if String.eqb (risk_level result) "HIGH" then high_risk_count + 1
    else high_risk_count in
  (results, high_risk_count).

Definition predict_fraud_batch (fraud_engine : engine) (claims : list ClaimData)
    : BatchFraudScores :=
  let '(results, high_risk_count) :=
    fold_left (batch_step fraud_engine) claims ([], 0) in
  {| results := results;
     total_processed := length results;
     high_risk_count := high_risk_count |}.

(** [FallbackFraudEngine.get_model_info] *)
Definition get_model_info : dict info_value :=
  [("model_type", IStr "Business Rules Engine (Fallback Mode)");
   ("version", IStr "1.0.0-fallback");
   ("performance",
    IFloats [("auc", 0.847%float); ("precision_at_10", 0.623%float);
             ("ks_statistic", 0.412%float)]);
   ("business_impact",
    IStrs [("annual_savings", "$20M+");
           ("detection_speed", "Real-time vs 45 days");
           ("investigation_efficiency", "+70%")])].

(** [ModelInfo], the response of [/model/info]. *)
Record ModelInfo := {
  model_type : string;
  version : string;
  performance_metrics : dict float;
  business_metrics : dict string;
  compliance : dict string;
  last_updated : string;
  features_count : Z;
  training_data_size : string
}.

(** [info.get(key, default)] *)
Definition info_get (info : dict info_value) (key : string) (dflt : info_value)
    : info_value :=
  default dflt (dict_get key info).

(** The local [performance] of [model_info]: the entry of that name, or
    the fixed three metrics. *)
Definition performance_of (info : dict info_value) : info_value :=
  match dict_get "performance" info with
  | Some v => v
  | None =>
      IFloats [("auc", 0.847%float); ("precision_at_10", 0.623%float);
               ("ks_statistic", 0.412%float)]
  end.

(** [performance.get(key, default)] as an entry of a [Dict[str, float]]:
    a string has no [get]; an integer passes as its float; a string
    entry is taken as one that is no number (neither engine has one). *)
Definition performance_get (performance : info_value) (key : string) (dflt : float)
    : result float :=
  match performance with
  | IFloats d => Ok (default dflt (dict_get key d))
  | IInts d => Ok (default dflt (float_of_Z <$> dict_get key d))
  | IStrs d => match dict_get key d with Some _ => Raise ValueError | None => Ok dflt end
  | IStr _ => Raise AttributeError
  end.

(** A field of type [str] of [ModelInfo]: a dictionary is none. *)
Definition as_str (v : info_value) : result string :=
  match v with
  | IStr s => Ok s
  | _ => Raise ValueError
  end.

(** [model_info]: the body of the endpoint on the [info] that
    [fraud_engine.get_model_info()] returned. *)
Definition model_info (info : dict info_value) : result ModelInfo :=
  let performance := performance_of info in
  let model_type := info_get info "model_type" (IStr "Dual Model: Logistic + XGBoost") in
  let version := info_get info "version" (IStr "1.0.0") in
  auc ← performance_get performance "auc" 0.847%float;
  precision_at_10 ← performance_get performance "precision_at_10" 0.623%float;
  ks_statistic ← performance_get performance "ks_statistic" 0.412%float;
  model_type ← as_str model_type;
  version ← as_str version;
  Ok {| model_type := model_type;
        version := version;
        performance_metrics :=
          [("auc", auc); ("precision_at_10_percent", precision_at_10);
           ("ks_statistic", ks_statistic); ("recall", 0.78%float);
           ("f1_score", 0.69%float)];
        business_metrics :=
          [("annual_savings", "$20M+");
           ("detection_speed", "Real-time vs 45 days");
           ("investigation_efficiency", "+70%");
           ("false_positive_reduction", "45%")];
        compliance :=
          [("explainability", "100% - Full scorecard breakdown");
           ("auditability", "Complete decision trail documented");
           ("regulatory_status", "Fully compliant");
           ("model_governance", "Automated monitoring active")];
        last_updated := "2025-07-06";
        features_count := 15;
        training_data_size := "5,000+ claims with comprehensive validation" |}.

(** [fraud_engine.get_model_info()]; the metadata is that of the loaded
    engine. *)
Definition engine_info (fraud_engine : engine) (metadata : Metadata) : dict info_value :=
  match fraud_engine with
  | Trained self => Info.get_model_info self metadata
  | Fallback => get_model_info
  end.

(** [health_check]: the entry ["model_status"]. *)
Definition model_status (fraud_engine : engine) : string :=
  match fraud_engine with
  | Trained _ => "ML Engine Active"
  | Fallback => "Fallback Mode"
  end.

End Api.

(** ** Vocabulary of the further properties *)

Module Rules.

(** The six business rules on a claim record, in the order in which both
    engines test them: urgent claim, All Perils policy, premium make,
    young driver, luxury price, rural area. *)
Definition triggered (claim_data : gmap string string) : list bool :=
  [eq_str (claim_data !! "Days_Policy_Claim") "1 to 7";
   str_contains "All Perils" (default "" (claim_data !! "PolicyType"));
   in_list (claim_data !! "Make") ["BMW"; "Mercedes"; "Audi"];
   in_list (claim_data !! "AgeOfPolicyHolder") ["18 to 20"; "21 to 25"];
   in_list (claim_data !! "VehiclePrice") ["60000 to 69000"; "more than 69000"];
   eq_str (claim_data !! "AccidentArea") "Rural"].

Definition count_true (l : list bool) : nat := length (filter (fun b => b = true) l).

(** The int of a flag. *)
Definition flag (b : bool) : Series := [Num (if b then 1%float else 0%float)].

(** The features at the places before a name in the expected order. *)
Fixpoint before (f : string) (l : list string) : list string :=
  match l with
  | [] => []
  | g :: l' => if String.eqb g f then [] else g :: before f l'
  end.

(** The two risk factors that [main.py] words otherwise than
    [models.py]. *)
Definition reword (factor : string) : string :=
  if String.eqb factor "🔍 Póliza de cobertura completa (All Perils)"
  then "🔍 Póliza All Perils (mayor complejidad)"
  else if String.eqb factor "👤 Conductor joven (mayor riesgo estadístico)"
  then "👤 Conductor joven (alto riesgo)"
  else factor.

(** The business flags of [prepare_features], each with the rule that
    it follows. *)
Definition flag_rules (claim_data : gmap string string) : list (string * bool) :=
  match triggered claim_data with
  | [urgent; perils; premium; young; luxury; _] =>
      [("Claim_Urgency", urgent); ("Luxury_Vehicle", luxury); ("Young_Driver", young);
       ("Complex_Policy", perils); ("Premium_Make", premium)]
  | _ => []
  end.

(** Steps 1 to 3 of [prepare_features]: the frame that the selection of
    the features reads. *)
Definition derive (self : Models.FraudDetectionEngine) (claim_data : gmap string string)
    : result DataFrame :=
  df ← Models.business_columns (Models.numeric_columns (frame_of_record claim_data));
  Ok (Models.woe_columns self df).

(** A frame without rows: every column is empty. *)
Definition no_rows (X : DataFrame) : Prop :=
  index X = 0%nat /\ Forall (fun kc => kc.2 = []) (columns X).

(** What the keys of a breakdown are, for a list of rows and the frame
    [X]: distinct names, each "Base Score" or the display name of a row
    whose variable is a column of [X]. *)
Definition breakdown_keys_ok (rows : list (string * Z)) (X : DataFrame) (bd : dict Z) : Prop :=
  NoDup (dict_keys bd) /\
  forall k, k ∈ dict_keys bd ->
            k = "Base Score" \/
            exists row, row ∈ rows /\ is_Some (get X row.1) /\
                        k = Models.display_name row.1.

(** The results of a batch that are HIGH. *)
Definition high_results (l : list ScoreResult) : list ScoreResult :=
  filter (fun r => risk_level r = "HIGH") l.

(** The sample engine with the features of the accident area and of the
    make in the other order. *)
Definition engine_area_first : Models.FraudDetectionEngine := {|
  Models.logistic_model := Models.logistic_model Samples.engine;
  Models.xgb_model := Models.xgb_model Samples.engine;
  Models.woe_mappings := Models.woe_mappings Samples.engine;
  Models.scorecard := Models.scorecard Samples.engine;
  Models.base_points := Models.base_points Samples.engine;
  Models.feature_names :=
    ["AccidentArea_WoE"; "Make_WoE"; "AgeOfPolicyHolder_Numeric"; "Claim_Urgency"]
|}.

(** The sample engine with other predictors. *)
Definition engine_other_models : Models.FraudDetectionEngine := {|
  Models.logistic_model := Samples.constant_model 0.9%float;
  Models.xgb_model := Samples.constant_model 0.8%float;
  Models.woe_mappings := Models.woe_mappings Samples.engine;
  Models.scorecard := Models.scorecard Samples.engine;
  Models.base_points := Models.base_points Samples.engine;
  Models.feature_names := Models.feature_names Samples.engine
|}.

End Rules.

Import Rules.

(** * Properties of the fallback engine *)

Section FallbackEngine.

Import Main.

(** Splits on the outcome of the six business rules for [claim]. *)
Ltac split_rules claim :=
  unfold calculate_fraud_score, apply_business_rules;
  destruct (eq_str (claim !! "Days_Policy_Claim") "1 to 7");
  destruct (str_contains "All Perils" (default "" (claim !! "PolicyType")));
  destruct (in_list (claim !! "Make") ["BMW"; "Mercedes"; "Audi"]);
  destruct (in_list (claim !! "AgeOfPolicyHolder") ["18 to 20"; "21 to 25"]);
  destruct (in_list (claim !! "VehiclePrice") ["60000 to 69000"; "more than 69000"]);
  destruct (eq_str (claim !! "AccidentArea") "Rural").

Lemma fallback_level_follows_score (claim_data : gmap string string) :
  level_follows_score (calculate_fraud_score claim_data) /\
  risk_level (calculate_fraud_score claim_data) ∈ ["HIGH"; "MEDIUM"; "LOW"].
Proof.
  unfold calculate_fraud_score, final_metrics.
  generalize (apply_business_rules claim_data); intros r.
  generalize (base_score + points_adjustment (scorecard r)); intros z.
  unfold level_follows_score.
  destruct (z <=? 580) eqn:E1; [| destruct (z <=? 620) eqn:E2]; cbn;
    rewrite ?Z.leb_le, ?Z.leb_gt in *;
    (split; [ repeat split; intros; try discriminate; try lia; try reflexivity
            | set_solver ]).
Qed.

Lemma fallback_breakdown_head (claim_data : gmap string string) :
  head (scorecard_breakdown (calculate_fraud_score claim_data)) = Some ("Base Score", 650).
Proof. split_rules claim_data; reflexivity. Qed.

(** C6.  For every claim record, the risk score that the fallback engine
    returns is the "Base Score" entry of the returned breakdown plus the
    sum of all its other entries; it is also the sum of all entries. *)
Theorem fallback_score_is_breakdown_total (claim_data : gmap string string) :
  let r := calculate_fraud_score claim_data in
  exists b,
    dict_get "Base Score" (scorecard_breakdown r) = Some b /\
    risk_score r = b + sum_other_values "Base Score" (scorecard_breakdown r) /\
    risk_score r = sum_values (scorecard_breakdown r).
Proof.
  cbv zeta. exists 650.
  split_rules claim_data; vm_compute; repeat split; reflexivity.
Qed.

(** C9.  For every claim record, the fraud probability that the fallback
    engine returns lies between 0.035 and 0.625, and clamping the sum of
    the rule weights to [0.005, 0.95] leaves it as it is. *)
Theorem fallback_probability_range (claim_data : gmap string string) :
  let r := calculate_fraud_score claim_data in
  PrimFloat.leb 0.035%float (fraud_probability r) = true /\
  PrimFloat.leb (fraud_probability r) 0.625%float = true /\
  clamp (fraud_prob (apply_business_rules claim_data)) =
    fraud_prob (apply_business_rules claim_data).
Proof.
  cbv zeta.
  split_rules claim_data; vm_compute; repeat split; reflexivity.
Qed.

(** C2, as the code has it.  For every claim record with
    Days_Policy_Claim "1 to 7", PolicyType "Sport - All Perils", Make
    "BMW", AgeOfPolicyHolder "21 to 25", VehiclePrice "more than 69000"
    and AccidentArea "Urban", the fallback engine returns the fraud
    probability 0.575 (the base rate and the five weights 0.18, 0.09,
    0.12, 0.07 and 0.08), the risk score 567 and the risk level HIGH. *)
Theorem fallback_scenario1 (claim_data : gmap string string) :
  claim_data !! "Days_Policy_Claim" = Some "1 to 7" ->
  claim_data !! "PolicyType" = Some "Sport - All Perils" ->
  claim_data !! "Make" = Some "BMW" ->
  claim_data !! "AgeOfPolicyHolder" = Some "21 to 25" ->
  claim_data !! "VehiclePrice" = Some "more than 69000" ->
  claim_data !! "AccidentArea" = Some "Urban" ->
  let r := calculate_fraud_score claim_data in
  fraud_probability r = 0.575%float /\ risk_score r = 567 /\ risk_level r = "HIGH".
Proof.
  intros H1 H2 H3 H4 H5 H6. cbv zeta.
  unfold calculate_fraud_score, apply_business_rules.
  rewrite H1, H2, H3, H4, H5, H6.
  vm_compute. repeat split; reflexivity.
Qed.

Lemma fallback_scenario1_witness :
  let r := calculate_fraud_score Samples.scenario1 in
  fraud_probability r = 0.575%float /\ risk_score r = 567 /\ risk_level r = "HIGH".
Proof. apply (fallback_scenario1 Samples.scenario1); reflexivity. Defined.

(** C2, as the specification has it, fails: on the claim record of
    scenario 1 the fallback engine does not return the fraud probability
    0.545. *)
Lemma fallback_scenario1_not_0545 :
  fraud_probability (calculate_fraud_score Samples.scenario1) <> 0.545%float.
Proof.
  intros H.
  assert (E : PrimFloat.eqb (fraud_probability (calculate_fraud_score Samples.scenario1))
                0.545%float = true) by (rewrite H; reflexivity).
  vm_compute in E. discriminate E.
Qed.

(** C10.  Two claim records that agree on Days_Policy_Claim, PolicyType,
    Make, AgeOfPolicyHolder, VehiclePrice and AccidentArea get the same
    result from the fallback engine, whatever their other fields are:
    the same probability, score, level, confidence, risk factors,
    breakdown and recommendation. *)
Theorem fallback_reads_six_fields (c1 c2 : gmap string string) :
  agree_on ["Days_Policy_Claim"; "PolicyType"; "Make"; "AgeOfPolicyHolder";
            "VehiclePrice"; "AccidentArea"] c1 c2 ->
  let r1 := calculate_fraud_score c1 in
  let r2 := calculate_fraud_score c2 in
  fraud_probability r1 = fraud_probability r2 /\
  risk_score r1 = risk_score r2 /\
  risk_level r1 = risk_level r2 /\
  confidence r1 = confidence r2 /\
  key_risk_factors r1 = key_risk_factors r2 /\
  scorecard_breakdown r1 = scorecard_breakdown r2 /\
  business_recommendation r1 = business_recommendation r2.
Proof.
  unfold agree_on. intros H. cbv zeta.
  repeat match goal with
         | H : Forall _ (_ :: _) |- _ => apply Forall_cons_1 in H; destruct H as [? H]
         end.
  assert (E : calculate_fraud_score c1 = calculate_fraud_score c2).
  { unfold calculate_fraud_score, apply_business_rules.
    repeat match goal with
           | E : c1 !! _ = c2 !! _ |- _ => rewrite E; clear E
           end.
    reflexivity. }
  rewrite E. repeat split; reflexivity.
Qed.

Lemma fallback_reads_six_fields_witness :
  let c1 := Samples.test_claim in
  let c2 := <["Month" := "Dec"]> (<["DayOfWeek" := "Monday"]> (<["Sex" := "Female"]>
            (<["MaritalStatus" := "Married"]> (delete "AgeOfVehicle" Samples.test_claim)))) in
  let r1 := calculate_fraud_score c1 in
  let r2 := calculate_fraud_score c2 in
  c1 !! "Month" <> c2 !! "Month" /\
  (fraud_probability r1 = fraud_probability r2 /\
   risk_score r1 = risk_score r2 /\
   risk_level r1 = risk_level r2 /\
   confidence r1 = confidence r2 /\
   key_risk_factors r1 = key_risk_factors r2 /\
   scorecard_breakdown r1 = scorecard_breakdown r2 /\
   business_recommendation r1 = business_recommendation r2).
Proof.
  cbv zeta. split.
  - vm_compute. discriminate.
  - apply fallback_reads_six_fields.
    unfold agree_on. repeat constructor.
Defined.

End FallbackEngine.

(** * Dictionaries, strings and frames *)

Section Dicts.

Context {V : Type}.
Implicit Types (d : dict V) (k : string) (v : V).

Lemma dict_get_set_eq k v d : dict_get k (dict_set k v d) = Some v.
Proof.
  induction d as [|[k' v'] d IH]; simpl.
  - by rewrite String.eqb_refl.
  - destruct (String.eqb k' k) eqn:E; simpl; by rewrite E.
Qed.

Lemma dict_get_set_ne k k' v d : k <> k' -> dict_get k' (dict_set k v d) = dict_get k' d.
Proof.
  intros Hne. induction d as [|[k0 v0] d IH]; simpl.
  - apply String.eqb_neq in Hne. by rewrite Hne.
  - destruct (String.eqb k0 k) eqn:E; simpl.
    + apply String.eqb_eq in E. subst k0.
      apply String.eqb_neq in Hne. by rewrite Hne.
    + by rewrite IH.
Qed.

(** Assigning to a dictionary that has a first entry keeps the key of
    that entry, and its value unless the assignment is to that key. *)
Lemma dict_set_head k v k0 v0 d :
  exists v1, dict_set k v ((k0, v0) :: d) = (k0, v1) :: tl (dict_set k v ((k0, v0) :: d))
             /\ (k <> k0 -> v1 = v0).
Proof.
  simpl. destruct (String.eqb k0 k) eqn:E.
  - exists v. split; [done|]. apply String.eqb_eq in E. intros Hne. by destruct Hne.
  - exists v0. by split.
Qed.

Lemma dict_get_list_to_map d k : dict_get k d = (list_to_map d : gmap string V) !! k.
Proof.
  induction d as [|[k' v'] d IH]; simpl; [by rewrite lookup_empty|].
  destruct (String.eqb k' k) eqn:E.
  - apply String.eqb_eq in E. subst. by rewrite lookup_insert_eq.
  - apply String.eqb_neq in E. by rewrite lookup_insert_ne.
Qed.

Lemma dict_get_map {W} (f : V -> W) d k :
  dict_get k (map (fun kv => (fst kv, f (snd kv))) d) = f <$> dict_get k d.
Proof.
  induction d as [|[k' v'] d IH]; simpl; [done|].
  by destruct (String.eqb k' k).
Qed.

End Dicts.

Section Strings.

Lemma append_length (a b : string) :
  String.length (String.append a b) = (String.length a + String.length b)%nat.
Proof. induction a as [|c a IH]; simpl; [done | by rewrite IH]. Qed.

(** [a + s == b + s] only for [a == b]. *)
Lemma append_cancel_r (s a b : string) :
  String.append a s = String.append b s -> a = b.
Proof.
  revert b. induction a as [|c a IH]; intros [|c' b] H.
  - done.
  - apply (f_equal String.length) in H. rewrite !append_length in H.
    change (String.length (String c' b)) with (S (String.length b)) in H.
    change (String.length "") with 0%nat in H. lia.
  - apply (f_equal String.length) in H. rewrite !append_length in H.
    change (String.length (String c a)) with (S (String.length a)) in H.
    change (String.length "") with 0%nat in H. lia.
  - simpl in H. injection H as -> H. f_equal. by apply IH.
Qed.

Lemma str_endswith_append (a s : string) : str_endswith s (String.append a s) = true.
Proof.
  induction a as [|c a IH]; simpl.
  - destruct s; simpl; [done|]. by rewrite Ascii.eqb_refl, String.eqb_refl.
  - rewrite IH. apply orb_true_r.
Qed.

(** A name that does not end in [_WoE] is no [_WoE] column. *)
Lemma not_woe_column (a s : string) :
  str_endswith "_WoE" s = false -> String.append a "_WoE" <> s.
Proof. intros H <-. by rewrite str_endswith_append in H. Qed.

End Strings.

Section Frames.

Implicit Types (df : DataFrame) (s : Series) (k : string).

Lemma set_series_one k s df :
  index df = 1%nat ->
  set_series k s df = mkDataFrame 1 (dict_set k (reindex 1 s) (columns df)).
Proof. intros H. unfold set_series. rewrite H. simpl. by rewrite H. Qed.

Lemma index_set_series k s df : index df = 1%nat -> index (set_series k s df) = 1%nat.
Proof. intros H. by rewrite set_series_one. Qed.

Lemma get_set_series_eq k s df :
  index df = 1%nat -> get (set_series k s df) k = Some (reindex 1 s).
Proof. intros H. rewrite set_series_one by done. apply dict_get_set_eq. Qed.

Lemma get_set_series_ne k k' s df :
  index df = 1%nat -> k <> k' -> get (set_series k s df) k' = get df k'.
Proof. intros H Hne. rewrite set_series_one by done. by apply dict_get_set_ne. Qed.

Lemma index_set_scalar k c df : index (set_scalar k c df) = index df.
Proof. reflexivity. Qed.

Lemma get_set_scalar_ne k k' c df : k <> k' -> get (set_scalar k c df) k' = get df k'.
Proof. intros Hne. unfold get, set_scalar; simpl. by apply dict_get_set_ne. Qed.

Lemma index_frame_of_record (r : gmap string string) : index (frame_of_record r) = 1%nat.
Proof. reflexivity. Qed.

Lemma get_frame_of_record (r : gmap string string) k :
  get (frame_of_record r) k = (fun v => [Str v]) <$> r !! k.
Proof.
  unfold get, frame_of_record; simpl.
  rewrite (dict_get_map (fun v => [Str v])), dict_get_list_to_map.
  by rewrite list_to_map_to_list.
Qed.

End Frames.

(** * Feature derivation of the trained engine *)

Section FeatureDerivation.

Import Models.

Implicit Types (df : DataFrame) (claim_data : gmap string string).

Ltac solve_index :=
  repeat apply index_set_series; first [assumption | apply index_frame_of_record].

Ltac frame_simpl :=
  repeat first
    [ rewrite get_set_series_eq by solve_index
    | rewrite get_set_series_ne by first [solve_index | discriminate] ].

(** The four numeric columns: the mapped and filled series, aligned on
    the one row of the frame. *)
Lemma get_numeric_column claim_data t :
  t ∈ mapper_tables ->
  get (numeric_columns (frame_of_record claim_data)) (mt_column t) =
    Some (reindex 1 (fillna (mt_default t)
                       (series_map (mt_mapping t)
                          (default [] (raw_column claim_data (mt_field t)))))).
Proof.
  unfold mapper_tables, raw_column. intros Ht.
  repeat (apply elem_of_cons in Ht as [->|Ht]);
    [ .. | by apply elem_of_nil in Ht ];
    unfold numeric_columns, mapped; simpl mt_column; simpl mt_field;
    frame_simpl; by rewrite get_frame_of_record.
Qed.

Lemma get_numeric_columns_other df k :
  index df = 1%nat ->
  k ∉ map mt_column mapper_tables ->
  get (numeric_columns df) k = get df k.
Proof.
  intros Hi Hk. unfold numeric_columns.
  rewrite !get_set_series_ne; try done; try solve_index;
    intros <-; apply Hk; simpl; set_solver.
Qed.

(** A field that is absent: the empty series stays empty through [map]
    and [fillna], and its alignment on the row of the frame is NaN. *)
Lemma mapper_missing_field claim_data t :
  t ∈ mapper_tables ->
  claim_data !! mt_field t = None ->
  mapped (frame_of_record claim_data) (mt_field t) (mt_mapping t) (mt_default t) = [] /\
  get (numeric_columns (frame_of_record claim_data)) (mt_column t) = Some [Num nan].
Proof.
  intros Ht Hnone. split.
  - unfold mapped. by rewrite get_frame_of_record, Hnone.
  - rewrite get_numeric_column by done. unfold raw_column. by rewrite Hnone.
Qed.

(** A value that the table lacks: the default of the table. *)
Lemma mapper_unmapped_value claim_data t v :
  t ∈ mapper_tables ->
  claim_data !! mt_field t = Some v ->
  mt_mapping t !! v = None ->
  get (numeric_columns (frame_of_record claim_data)) (mt_column t) = Some [Num (mt_default t)].
Proof.
  intros Ht Hv Hnone. rewrite get_numeric_column by done.
  unfold raw_column. rewrite Hv. simpl. by rewrite Hnone.
Qed.

(** The business flags are derived when each field they read is a
    column, and only then. *)
Lemma business_columns_raise df field flag :
  index df = 1%nat ->
  (field, flag) ∈ flag_fields ->
  get df field = None ->
  business_columns df = Raise AttributeError.
Proof.
  intros Hi Hin Hnone. unfold business_columns, get_or_str.
  destruct (get df "Days_Policy_Claim") eqn:E1; [|done]. simpl. frame_simpl.
  destruct (get df "VehiclePrice") eqn:E2; [|done]. simpl. frame_simpl.
  destruct (get df "AgeOfPolicyHolder") eqn:E3; [|done]. simpl. frame_simpl.
  destruct (get df "PolicyType") eqn:E4; [|done]. simpl. frame_simpl.
  destruct (get df "Make") eqn:E5; [|done]. exfalso.
  unfold flag_fields in Hin.
  repeat (apply elem_of_cons in Hin as [[= -> ->]|Hin]); try congruence.
  by apply elem_of_nil in Hin.
Qed.

Lemma business_columns_ok df :
  index df = 1%nat ->
  Forall (fun ff => is_Some (get df (fst ff))) flag_fields ->
  exists df', business_columns df = Ok df' /\ index df' = 1%nat /\
    forall k, k ∉ map snd flag_fields -> get df' k = get df k.
Proof.
  intros Hi Hall. unfold flag_fields in Hall.
  repeat match goal with
         | H : Forall _ (_ :: _) |- _ => apply Forall_cons_1 in H; destruct H as [[? ?] H]
         end.
  simpl in *. unfold business_columns, get_or_str.
  repeat match goal with E : get df _ = Some _ |- _ => rewrite E; simpl; frame_simpl; clear E end.
  eexists. split; [reflexivity|]. split; [solve_index|].
  intros k Hk.
  rewrite !get_set_series_ne; try done; try solve_index;
    intros <-; apply Hk; simpl; set_solver.
Qed.

End FeatureDerivation.

(** * Weight-of-Evidence columns and the selection of features *)

Section WoEAndSelection.

Import Models.

Implicit Types (df X : DataFrame) (k var : string).

Lemma index_woe_step df item : index df = 1%nat -> index (woe_step df item) = 1%nat.
Proof.
  intros H. unfold woe_step. destruct (get df item.1); [|done].
  by apply index_set_series.
Qed.

Lemma get_woe_step_other df item k :
  index df = 1%nat -> String.append item.1 "_WoE" <> k ->
  get (woe_step df item) k = get df k.
Proof.
  intros H Hne. unfold woe_step. destruct (get df item.1); [|done].
  by apply get_set_series_ne.
Qed.

(** The loop leaves alone every column that is no [var_WoE] of a table. *)
Lemma get_woe_fold_other l df k :
  index df = 1%nat ->
  Forall (fun item => String.append item.1 "_WoE" <> k) l ->
  get (fold_left woe_step l df) k = get df k.
Proof.
  revert df. induction l as [|item l IH]; intros df H Hall; simpl; [done|].
  apply Forall_cons_1 in Hall as [Hitem Hall].
  rewrite IH by (try apply index_woe_step; done).
  by apply get_woe_step_other.
Qed.

Lemma get_woe_fold_not_woe l df k :
  index df = 1%nat -> str_endswith "_WoE" k = false ->
  get (fold_left woe_step l df) k = get df k.
Proof.
  intros H Hk. apply get_woe_fold_other; [done|].
  apply Forall_forall. intros item _. by apply not_woe_column.
Qed.

(** The column [var_WoE] after the loop, for the table of a variable
    that is itself no [_WoE] column: the looked-up and filled column of
    the variable. *)
Lemma get_woe_fold l df var woe_dict :
  index df = 1%nat ->
  NoDup (dict_keys l) ->
  (var, woe_dict) ∈ l ->
  str_endswith "_WoE" var = false ->
  get (fold_left woe_step l df) (String.append var "_WoE") =
    match get df var with
    | Some col => Some (reindex 1 (fillna 0%float (series_map woe_dict col)))
    | None => get df (String.append var "_WoE")
    end.
Proof.
  intros Hi Hnd Hin Hvar. revert df Hi.
  induction l as [|[k w] l IH]; intros df Hi; [by apply elem_of_nil in Hin|].
  simpl in Hnd. apply NoDup_cons in Hnd as [Hk Hnd].
  apply elem_of_cons in Hin as [[= <- <-]|Hin]; simpl.
  - rewrite get_woe_fold_other.
    + unfold woe_step; simpl. destruct (get df var); [|done].
      by apply get_set_series_eq.
    + by apply index_woe_step.
    + apply Forall_forall. intros [k' w'] Hin' E. simpl in E.
      apply append_cancel_r in E. subst k'. apply Hk.
      apply list_elem_of_fmap. by exists (var, w').
  - rewrite IH by (try apply index_woe_step; done).
    assert (k <> var) as Hne.
    { intros ->. apply Hk. apply list_elem_of_fmap. by exists (var, woe_dict). }
    rewrite !get_woe_step_other; try done.
    + intros E. simpl in E. by apply append_cancel_r in E.
    + simpl. by apply not_woe_column.
Qed.

(** Selection: once a feature has been taken from the frame, the
    selected frame has its row, and the feature keeps its column. *)
Lemma select_step_keeps df X feature f col :
  index X = 1%nat -> get X f = Some col ->
  get df f = Some col -> length col = 1%nat ->
  index (select_step df X feature) = 1%nat /\ get (select_step df X feature) f = Some col.
Proof.
  intros Hi HX Hdf Hlen. unfold select_step.
  destruct (decide (feature = f)) as [->|Hne].
  - rewrite Hdf. split; [by apply index_set_series|].
    rewrite get_set_series_eq by done.
    destruct col as [|c [|]]; try done.
  - destruct (get df feature).
    + split; [by apply index_set_series|]. by rewrite get_set_series_ne.
    + split; [done|]. by rewrite get_set_scalar_ne.
Qed.

Lemma select_fold_keeps df l X f col :
  index X = 1%nat -> get X f = Some col ->
  get df f = Some col -> length col = 1%nat ->
  index (fold_left (select_step df) l X) = 1%nat /\
  get (fold_left (select_step df) l X) f = Some col.
Proof.
  revert X. induction l as [|feature l IH]; intros X Hi HX Hdf Hlen; simpl; [done|].
  destruct (select_step_keeps df X feature f col) as [? ?]; try done.
  by apply IH.
Qed.

(** Assigning a one-row series to a frame with at most its row. *)
Lemma set_series_first k (s : Series) X :
  length s = 1%nat -> (index X = 0%nat \/ index X = 1%nat) ->
  index (set_series k s X) = 1%nat /\ get (set_series k s X) k = Some s.
Proof.
  intros Hlen HX. destruct s as [|c [|]]; try done.
  unfold set_series, get. destruct HX as [HX|HX]; rewrite HX; simpl.
  - by rewrite dict_get_set_eq.
  - by rewrite HX, dict_get_set_eq.
Qed.

Lemma index_select_step df X feature :
  index df = 1%nat -> (forall k col, get df k = Some col -> length col = 1%nat) ->
  (index X = 0%nat \/ index X = 1%nat) ->
  index (select_step df X feature) = 0%nat \/ index (select_step df X feature) = 1%nat.
Proof.
  intros Hdf Hlen HX. unfold select_step.
  destruct (get df feature) as [col|] eqn:E; [|by rewrite index_set_scalar].
  right. apply Hlen in E. by apply set_series_first.
Qed.

Lemma select_fold_get df l X f col :
  (forall k c, get df k = Some c -> length c = 1%nat) ->
  index df = 1%nat ->
  (index X = 0%nat \/ index X = 1%nat) ->
  f ∈ l -> get df f = Some col ->
  index (fold_left (select_step df) l X) = 1%nat /\
  get (fold_left (select_step df) l X) f = Some col.
Proof.
  intros Hlen Hdf. revert X.
  induction l as [|feature l IH]; intros X HX Hin Hf; [by apply elem_of_nil in Hin|].
  simpl. destruct (decide (feature = f)) as [->|Hne].
  - pose proof (Hlen _ _ Hf) as Hc.
    destruct (set_series_first f col X Hc HX) as [? ?].
    apply select_fold_keeps; try done; unfold select_step; by rewrite Hf.
  - apply elem_of_cons in Hin as [->|Hin]; [done|].
    apply IH; try done. by apply index_select_step.
Qed.

End WoEAndSelection.

(** * One-row frames *)

Section OneRow.

Import Models.

Implicit Types (df : DataFrame).

Lemma one_row_frame_of_record (r : gmap string string) : one_row (frame_of_record r).
Proof.
  split; [done|]. intros k col. rewrite get_frame_of_record.
  destruct (r !! k); simpl; by intros [= <-].
Qed.

Lemma one_row_set_series k s df : one_row df -> one_row (set_series k s df).
Proof.
  intros [Hi Hlen]. split; [by apply index_set_series|].
  intros k' col. destruct (decide (k = k')) as [<-|Hne].
  - rewrite get_set_series_eq by done. by intros [= <-].
  - rewrite get_set_series_ne by done. apply Hlen.
Qed.

Lemma one_row_numeric_columns df : one_row df -> one_row (numeric_columns df).
Proof. intros H. unfold numeric_columns. by repeat apply one_row_set_series. Qed.

Lemma one_row_business_columns df df' :
  one_row df -> business_columns df = Ok df' -> one_row df'.
Proof.
  intros H. unfold business_columns.
  repeat match goal with
         | |- context [get_or_str ?d ?k ?v] => destruct (get_or_str d k v); simpl; [|done]
         end.
  intros [= <-]. by repeat apply one_row_set_series.
Qed.

Lemma one_row_woe_fold l df : one_row df -> one_row (fold_left woe_step l df).
Proof.
  revert df. induction l as [|item l IH]; intros df H; simpl; [done|].
  apply IH. unfold woe_step. destruct (get df item.1); [|done].
  by apply one_row_set_series.
Qed.

End OneRow.

(** * The scorecard and the risk tiers of the trained engine *)

Section Scorecard.

Import Models.

Variable self : FraudDetectionEngine.

Lemma scorecard_step_head X total bd row total' bd' v :
  scorecard_step X (total, bd) row = Ok (total', bd') ->
  head bd = Some ("Base Score", v) ->
  exists v', head bd' = Some ("Base Score", v') /\
             (display_name row.1 <> "Base Score" -> v' = v).
Proof.
  destruct row as [variable points]. unfold scorecard_step.
  destruct (get X variable) as [col|]; [|intros [= <- <-]; eauto].
  destruct (iloc0 col) as [value|]; simpl; [|done].
  destruct (contribution_of value points) as [contribution|]; simpl; [|done].
  destruct (PrimFloat.ltb _ _); [|intros [= <- <-]; eauto].
  destruct (py_int contribution) as [c|]; simpl; [|done].
  intros [= <- <-] Hhead.
  destruct bd as [|[k0 v0] bd]; [done|]. injection Hhead as -> ->.
  destruct (dict_set_head (display_name variable) c "Base Score" v bd) as (v1 & -> & Hv1).
  exists v1. split; [done|]. intros Hne. by apply Hv1.
Qed.

Lemma scorecard_fold_head X rows total bd total' bd' v :
  foldlM (scorecard_step X) (total, bd) rows = Ok (total', bd') ->
  head bd = Some ("Base Score", v) ->
  exists v', head bd' = Some ("Base Score", v') /\
             (Forall (fun row => display_name row.1 <> "Base Score") rows -> v' = v).
Proof.
  revert total bd v. induction rows as [|row rows IH]; intros total bd v Hfold Hhead.
  - injection Hfold as <- <-. eauto.
  - cbn [foldlM] in Hfold.
    destruct (scorecard_step X (total, bd) row) as [[total1 bd1]|] eqn:E; [|done].
    cbn in Hfold.
    destruct (scorecard_step_head _ _ _ _ _ _ _ E Hhead) as (v1 & Hhead1 & Hv1).
    destruct (IH _ _ _ Hfold Hhead1) as (v2 & Hhead2 & Hv2).
    exists v2. split; [done|]. intros Hall.
    apply Forall_cons_1 in Hall as [Hrow Hall].
    rewrite Hv2, Hv1; done.
Qed.

(** A returned breakdown starts with "Base Score"; the entry holds the
    integer part of the base points unless a row of the scorecard shows
    under that very name. *)
Lemma calculate_scorecard_points_head X t bd :
  calculate_scorecard_points self X = Ok (t, bd) ->
  exists b v, py_int (base_points self) = Ok b /\
    head bd = Some ("Base Score", v) /\
    (Forall (fun row => display_name row.1 <> "Base Score") (scorecard self) -> v = b).
Proof.
  unfold calculate_scorecard_points.
  destruct (py_int (base_points self)) as [b|]; simpl; [|done].
  destruct (foldlM _ _ _) as [[total bd']|] eqn:E; simpl; [|done].
  destruct (py_int total) as [t'|]; simpl; [|done].
  intros [= <- <-].
  destruct (scorecard_fold_head _ _ _ _ _ _ b E eq_refl) as (v & Hhead & Hv).
  by exists b, v.
Qed.

(** The [try] block, when it returns: the result is built from the
    scorecard total and its breakdown, and its level follows its score. *)
Lemma try_score_Ok claim_data r :
  try_score self claim_data = Ok r ->
  exists X, prepare_features self claim_data = Ok X /\
    is_Ok (logistic_model self X) /\ is_Ok (xgb_model self X) /\
    calculate_scorecard_points self X = Ok (risk_score r, scorecard_breakdown r) /\
    level_follows_score r /\
    risk_level r ∈ ["HIGH"; "MEDIUM"; "LOW"].
Proof.
  unfold try_score.
  destruct (prepare_features self claim_data) as [X|]; simpl; [|done].
  destruct (logistic_model self X) as [p1|] eqn:E1; simpl; [|done].
  destruct (xgb_model self X) as [p2|] eqn:E2; simpl; [|done].
  destruct (calculate_scorecard_points self X) as [[t bd]|] eqn:E3; simpl; [|done].
  intros Hr. exists X. split; [done|]. split; [by exists p1|]. split; [by exists p2|].
  unfold level_follows_score.
  destruct (t <=? 580) eqn:T1; [| destruct (t <=? 620) eqn:T2];
    injection Hr as <-; simpl;
    rewrite ?Z.leb_le, ?Z.leb_gt in *;
    (split; [done|]);
    (split; [ repeat split; intros; try discriminate; try lia; try reflexivity
            | set_solver ]).
Qed.

(** A failure of the feature derivation, of a predictor or of the
    scorecard leaves the [try] block by an exception. *)
Lemma try_score_Raise claim_data :
  is_Raise (prepare_features self claim_data) \/
  (exists X, prepare_features self claim_data = Ok X /\
     (is_Raise (logistic_model self X) \/ is_Raise (xgb_model self X) \/
      is_Raise (calculate_scorecard_points self X))) ->
  is_Raise (try_score self claim_data).
Proof.
  unfold try_score, is_Raise.
  intros [[e ->]|(X & -> & H)]; simpl; [by exists e|].
  destruct (logistic_model self X) as [p1|e1]; simpl; [|by exists e1].
  destruct (xgb_model self X) as [p2|e2]; simpl; [|by exists e2].
  destruct (calculate_scorecard_points self X) as [[t bd]|e3]; simpl; [|by exists e3].
  by destruct H as [[e ?]|[[e ?]|[e ?]]].
Qed.

End Scorecard.

(** * Numbers in the frame of features *)

Section NumericRows.

Import Models.

Implicit Types (df X : DataFrame) (claim_data : gmap string string).

(** Looking a cell up and filling the gap gives a number. *)
Lemma lookup_fillna_number (mapping : gmap string float) value c :
  PrimFloat.is_nan value = false ->
  number_column (reindex 1 (fillna value (series_map mapping [c]))).
Proof.
  intros Hvalue. destruct c as [v|x]; simpl.
  - destruct (mapping !! v) as [x|]; simpl.
    + destruct (PrimFloat.is_nan x) eqn:E; [by exists value | by exists x].
    + by exists value.
  - by exists value.
Qed.

Lemma mapper_default_not_nan t :
  t ∈ mapper_tables -> PrimFloat.is_nan (mt_default t) = false.
Proof.
  unfold mapper_tables. intros Ht.
  repeat (apply elem_of_cons in Ht as [->|Ht]); try reflexivity.
  by apply elem_of_nil in Ht.
Qed.

Lemma numeric_column_number claim_data t :
  t ∈ mapper_tables ->
  is_Some (claim_data !! mt_field t) ->
  exists col, get (numeric_columns (frame_of_record claim_data)) (mt_column t) = Some col /\
              number_column col.
Proof.
  intros Ht [v Hv]. rewrite get_numeric_column by done.
  unfold raw_column. rewrite Hv. simpl default.
  eexists. split; [reflexivity|].
  apply lookup_fillna_number. by apply mapper_default_not_nan.
Qed.

Lemma astype_int_number (b : bool) : number_column (reindex 1 (astype_int [b])).
Proof. destruct b; eexists; split; reflexivity. Qed.

(** The five flags of a one-row frame are numbers. *)
Lemma business_columns_flags df df' flag :
  one_row df ->
  business_columns df = Ok df' ->
  flag ∈ map snd flag_fields ->
  exists col, get df' flag = Some col /\ number_column col.
Proof.
  intros [Hi Hlen] Hdf Hflag. unfold business_columns, get_or_str in Hdf.
  destruct (get df "Days_Policy_Claim") as [s1|] eqn:E1; [|done].
  simpl in Hdf. rewrite !get_set_series_ne in Hdf
    by first [repeat apply index_set_series; assumption | discriminate].
  destruct (get df "VehiclePrice") as [s2|] eqn:E2; [|done].
  simpl in Hdf. rewrite !get_set_series_ne in Hdf
    by first [repeat apply index_set_series; assumption | discriminate].
  destruct (get df "AgeOfPolicyHolder") as [s3|] eqn:E3; [|done].
  simpl in Hdf. rewrite !get_set_series_ne in Hdf
    by first [repeat apply index_set_series; assumption | discriminate].
  destruct (get df "PolicyType") as [s4|] eqn:E4; [|done].
  simpl in Hdf. rewrite !get_set_series_ne in Hdf
    by first [repeat apply index_set_series; assumption | discriminate].
  destruct (get df "Make") as [s5|] eqn:E5; [|done].
  simpl in Hdf. injection Hdf as <-.
  apply Hlen in E1, E2, E3, E4, E5.
  destruct s1 as [|c1 [|]]; try done. destruct s2 as [|c2 [|]]; try done.
  destruct s3 as [|c3 [|]]; try done. destruct s4 as [|c4 [|]]; try done.
  destruct s5 as [|c5 [|]]; try done.
  simpl in Hflag.
  repeat (apply elem_of_cons in Hflag as [->|Hflag]);
    [ .. | by apply elem_of_nil in Hflag ];
    (eexists; split;
     [ repeat first
         [ rewrite get_set_series_eq
             by (repeat apply index_set_series; assumption)
         | rewrite get_set_series_ne
             by first [repeat apply index_set_series; assumption | discriminate] ];
       reflexivity
     | apply astype_int_number ]).
Qed.

Lemma Forall_dict_set {V} (P : string * V -> Prop) k v (d : dict V) :
  P (k, v) -> Forall P d -> Forall P (dict_set k v d).
Proof.
  intros Hkv. induction d as [|[k' v'] d IH]; simpl; intros Hall.
  - by constructor.
  - apply Forall_cons_1 in Hall as [Hhd Hall].
    destruct (String.eqb k' k) eqn:E.
    + apply String.eqb_eq in E. subst. by constructor.
    + constructor; [done|]. by apply IH.
Qed.

(** Selecting features that are all number columns of the frame gives,
    after the first of them, a row of numbers. *)
Lemma select_fold_numbers df l X :
  (forall f, f ∈ l -> exists col, get df f = Some col /\ number_column col) ->
  (index X = 0%nat /\ columns X = []) \/
  (index X = 1%nat /\ Forall (fun kc => number_column kc.2) (columns X)) ->
  l <> [] \/ index X = 1%nat ->
  index (fold_left (select_step df) l X) = 1%nat /\
  Forall (fun kc => number_column kc.2) (columns (fold_left (select_step df) l X)).
Proof.
  revert X. induction l as [|f l IH]; intros X Hl HX Hne; simpl.
  - destruct Hne as [?|Hi]; [done|]. destruct HX as [[H0 _]|[_ Hall]]; [congruence|done].
  - destruct (Hl f) as (col & Hcol & x & -> & Hx); [by left|].
    apply IH.
    + intros f' Hf'. apply Hl. by right.
    + right. unfold select_step. rewrite Hcol.
      destruct HX as [[H0 Hnil]|[H1 Hall]].
      * destruct X as [n cols]. simpl in H0, Hnil. subst n cols.
        split; [done|]. constructor; [by exists x|constructor].
      * rewrite set_series_one by done. simpl.
        split; [done|]. apply Forall_dict_set; [by exists x|done].
    + right. unfold select_step. rewrite Hcol.
      apply set_series_first; [done|]. destruct HX as [[? _]|[? _]]; auto.
Qed.

Lemma numeric_row_intro X :
  index X = 1%nat ->
  Forall (fun kc => number_column kc.2) (columns X) ->
  numeric_row X = true.
Proof.
  intros Hi Hall. unfold numeric_row. rewrite Hi. simpl.
  apply forallb_forall. intros [k s] Hin.
  rewrite Forall_forall in Hall.
  destruct (Hall (k, s)) as (x & Hs & Hx); [by apply list_elem_of_In|].
  simpl in *. subst s. by rewrite Hx.
Qed.

End NumericRows.

(** * Binary64 arithmetic that stays finite *)

Section Binary64.

Import FloatAxioms.

Lemma digits2_pos_bounds (p : positive) :
  2 ^ (Z.pos (digits2_pos p) - 1) <= Z.pos p < 2 ^ Z.pos (digits2_pos p).
Proof.
  induction p as [p IH|p IH|]; simpl digits2_pos.
  - rewrite Pos2Z.inj_succ.
    replace (Z.succ (Z.pos (digits2_pos p)) - 1) with (Z.succ (Z.pos (digits2_pos p) - 1)) by lia.
    rewrite !Z.pow_succ_r by lia. lia.
  - rewrite Pos2Z.inj_succ.
    replace (Z.succ (Z.pos (digits2_pos p)) - 1) with (Z.succ (Z.pos (digits2_pos p) - 1)) by lia.
    rewrite !Z.pow_succ_r by lia. lia.
  - simpl. lia.
Qed.

Lemma Zdigits2_le (m k : Z) : 0 <= k -> 0 <= m < 2 ^ k -> Zdigits2 m <= k.
Proof.
  intros Hk [Hm0 Hm]. destruct m as [|p|p]; simpl; [lia| |lia].
  destruct (digits2_pos_bounds p) as [Hlo _].
  destruct (Z_le_gt_dec (Z.pos (digits2_pos p)) k) as [|Hgt]; [done|exfalso].
  assert (2 ^ k <= 2 ^ (Z.pos (digits2_pos p) - 1)) by (apply Z.pow_le_mono_r; lia).
  lia.
Qed.

Lemma below_shr_1 k mrs : below k mrs -> below (k - 1) (shr_1 mrs).
Proof.
  unfold below. destruct mrs as [m r s]. simpl. intros [Hm0 Hm].
  destruct (Z_le_gt_dec k 0) as [Hk|Hk].
  - rewrite Z.max_r in Hm by lia. rewrite Z.max_r by lia.
    change (2 ^ 0) with 1 in *. assert (m = 0) as -> by lia. simpl. lia.
  - rewrite Z.max_l in Hm by lia.
    replace k with (Z.succ (k - 1)) in Hm by lia.
    rewrite Z.pow_succ_r in Hm by lia.
    rewrite (Z.max_l (k - 1)) by lia.
    destruct m as [|[p|p|]|p]; simpl; lia.
Qed.

Lemma below_iter_shr_1 (n : positive) : forall k mrs,
  below k mrs -> below (k - Z.pos n) (SpecFloat.iter_pos shr_1 n mrs).
Proof.
  induction n as [n IH|n IH|]; intros k mrs H; simpl.
  - apply below_shr_1, IH, IH in H.
    replace (k - Z.pos n~1) with (k - 1 - Z.pos n - Z.pos n) by lia. exact H.
  - apply IH, IH in H.
    replace (k - Z.pos n~0) with (k - Z.pos n - Z.pos n) by lia. exact H.
  - by apply below_shr_1.
Qed.

Lemma below_le k k' mrs : k <= k' -> below k mrs -> below k' mrs.
Proof.
  unfold below. intros Hk [H0 H]. split; [done|].
  eapply Z.lt_le_trans; [exact H|]. apply Z.pow_le_mono_r; lia.
Qed.

Lemma shr_m_record_of_loc m l : shr_m (shr_record_of_loc m l) = m.
Proof. by destruct l as [|[]]. Qed.

Lemma round_nearest_even_bounds m l :
  m <= round_nearest_even m l <= m + 1.
Proof. destruct l as [|[]]; simpl; try lia. destruct (Z.even m); lia. Qed.

(** The first shift of [binary_round_aux]. *)
Lemma shr_fexp_bounds m e l mrs e' :
  0 <= m ->
  shr_fexp prec emax m e l = (mrs, e') ->
  below 53 mrs /\ e' = Z.max e (fexp prec emax (Zdigits2 m + e)).
Proof.
  intros Hm. unfold shr_fexp, shr.
  assert (Hd : 0 <= m < 2 ^ Z.max (Zdigits2 m) 0).
  { destruct m as [|p|p]; [simpl; lia| |lia].
    pose proof (digits2_pos_bounds p). simpl Zdigits2. rewrite Z.max_l by lia. lia. }
  assert (Hfexp : Zdigits2 m + e - 53 <= fexp prec emax (Zdigits2 m + e)).
  { unfold fexp, prec. lia. }
  destruct (fexp prec emax (Zdigits2 m + e) - e) as [|n|n] eqn:En; intros [= <- <-].
  - split; [|lia]. unfold below. rewrite shr_m_record_of_loc.
    split; [lia|]. eapply Z.lt_le_trans; [apply Hd|].
    apply Z.pow_le_mono_r; lia.
  - split; [|lia].
    eapply below_le; [|apply (below_iter_shr_1 n (Zdigits2 m))].
    + lia.
    + unfold below. by rewrite shr_m_record_of_loc.
  - split; [|lia]. unfold below. rewrite shr_m_record_of_loc.
    split; [lia|]. eapply Z.lt_le_trans; [apply Hd|].
    apply Z.pow_le_mono_r; lia.
Qed.

(** What [binary_round_aux] returns on a positive mantissa, when the
    exponent that it reaches leaves room. *)
Lemma binary_round_aux_finite sx m e l E :
  0 < m ->
  Z.max e (fexp prec emax (Zdigits2 m + e)) <= E ->
  E + 1 <= emax - prec ->
  binary_round_aux prec emax sx m e l = S754_zero sx \/
  exists m' e', binary_round_aux prec emax sx m e l = S754_finite sx m' e' /\ e' <= E + 1.
Proof.
  intros Hm HE Hroom. unfold binary_round_aux.
  destruct (shr_fexp prec emax m e l) as [mrs1 e1] eqn:E1.
  apply shr_fexp_bounds in E1 as [Hb1 ->]; [|lia].
  set (m2 := round_nearest_even (shr_m mrs1) (loc_of_shr_record mrs1)).
  assert (Hm2 : 0 <= m2 < 2 ^ 54).
  { pose proof (round_nearest_even_bounds (shr_m mrs1) (loc_of_shr_record mrs1)).
    unfold below in Hb1. change (Z.max 53 0) with 53 in Hb1.
    change (2 ^ 54) with (2 * 2 ^ 53). change (2 ^ 53) with 9007199254740992 in *.
    unfold m2. lia. }
  set (e1 := Z.max e (fexp prec emax (Zdigits2 m + e))) in *.
  destruct (shr_fexp prec emax m2 e1 loc_Exact) as [mrs2 e2] eqn:E2.
  pose proof (Zdigits2_le m2 54 ltac:(lia) Hm2) as Hd2.
  apply shr_fexp_bounds in E2 as [Hb2 ->]; [|lia].
  assert (He2 : Z.max e1 (fexp prec emax (Zdigits2 m2 + e1)) <= E + 1).
  { unfold e1, fexp, SpecFloat.emin, prec, emax in *. lia. }
  destruct Hb2 as [Hb2 _].
  destruct (shr_m mrs2) as [|p|p]; [by left| |lia].
  right. exists p, (Z.max e1 (fexp prec emax (Zdigits2 m2 + e1))).
  split; [|done].
  destruct (Z.leb_spec (Z.max e1 (fexp prec emax (Zdigits2 m2 + e1))) (emax - prec)); [done|lia].
Qed.


Lemma sf_exponent_le_mono B B' x : B <= B' -> sf_exponent_le B x -> sf_exponent_le B' x.
Proof. destruct x; simpl; lia. Qed.

Lemma valid_finite_digits s m e :
  valid_binary (S754_finite s m e) = true -> Z.pos (digits2_pos m) <= 53.
Proof.
  simpl. unfold bounded, canonical_mantissa.
  intros [H _]%andb_prop. apply Z.eqb_eq in H.
  unfold fexp, prec in H. lia.
Qed.

Lemma binary_round_aux_exponent sx m e l E :
  0 < m ->
  Z.max e (fexp prec emax (Zdigits2 m + e)) <= E ->
  E + 1 <= emax - prec ->
  sf_exponent_le (E + 1) (binary_round_aux prec emax sx m e l).
Proof.
  intros Hm HE Hroom.
  destruct (binary_round_aux_finite sx m e l E Hm HE Hroom) as [->|(m' & e' & -> & He)];
    simpl; [done|lia].
Qed.

Lemma SFmul_exponent A B x y :
  valid_binary x = true -> valid_binary y = true ->
  sf_exponent_le A x -> sf_exponent_le B y ->
  -1000 <= A + B -> A + B + 54 <= emax - prec ->
  sf_exponent_le (A + B + 54) (SFmul prec emax x y).
Proof.
  intros Hvx Hvy Hx Hy Hlo Hhi.
  destruct x as [sx|sx| |sx mx ex], y as [sy|sy| |sy my ey]; simpl in Hx, Hy; try done.
  unfold SFmul.
  replace (A + B + 54) with (A + B + 53 + 1) by lia.
  apply binary_round_aux_exponent; [lia| |lia].
  apply valid_finite_digits in Hvx, Hvy.
  assert (Zdigits2 (Z.pos (mx * my)) <= Z.pos (digits2_pos mx) + Z.pos (digits2_pos my)).
  { apply Zdigits2_le; [lia|]. split; [lia|].
    rewrite Pos2Z.inj_mul, Z.pow_add_r by lia.
    destruct (digits2_pos_bounds mx), (digits2_pos_bounds my).
    apply Z.mul_lt_mono_nonneg; lia. }
  unfold fexp, SpecFloat.emin, prec, emax in *. lia.
Qed.

Lemma iter_xO_mul (d p : positive) : Z.pos (Pos.iter xO p d) = Z.pos p * 2 ^ Z.pos d.
Proof.
  induction d as [|d IH] using Pos.peano_ind.
  - simpl. lia.
  - rewrite Pos.iter_succ, Pos2Z.inj_xO, IH, Pos2Z.inj_succ, Z.pow_succ_r by lia. lia.
Qed.

Lemma shl_align_value mx ex ez :
  ez <= ex ->
  Z.pos (fst (shl_align mx ex ez)) = Z.pos mx * 2 ^ (ex - ez) /\
  snd (shl_align mx ex ez) = ez.
Proof.
  intros H. unfold shl_align.
  destruct (ez - ex) as [|d|d] eqn:Ed; simpl.
  - assert (ex = ez) as -> by lia. rewrite Z.sub_diag. simpl. lia.
  - lia.
  - rewrite iter_xO_mul. replace (ex - ez) with (Z.pos d) by lia. done.
Qed.

Lemma binary_round_exponent sx m e E :
  fexp prec emax (Z.pos (digits2_pos m) + e) <= E ->
  E + 1 <= emax - prec ->
  sf_exponent_le (E + 1) (binary_round prec emax sx m e).
Proof.
  intros HE Hroom. unfold binary_round.
  set (t := fexp prec emax (Z.pos (digits2_pos m) + e)) in *.
  destruct (Z_le_gt_dec t e) as [Hle|Hgt].
  - destruct (shl_align_value m e t Hle) as [Hv He].
    destruct (shl_align m e t) as [mz ez]. simpl in Hv, He. subst ez.
    apply binary_round_aux_exponent; [lia| |lia].
    assert (Zdigits2 (Z.pos mz) <= Z.pos (digits2_pos m) + (e - t)).
    { apply Zdigits2_le; [lia|]. split; [lia|]. rewrite Hv, Z.pow_add_r by lia.
      destruct (digits2_pos_bounds m).
      assert (0 < 2 ^ (e - t)) by (apply Z.pow_pos_nonneg; lia).
      apply Z.mul_lt_mono_pos_r; lia. }
    unfold t, fexp, SpecFloat.emin, prec, emax in *. lia.
  - unfold shl_align. destruct (t - e) as [|d|d] eqn:Ed; try lia.
    apply binary_round_aux_exponent; [lia| |lia]. simpl Zdigits2. fold t. lia.
Qed.

Lemma binary_normalize_exponent m e E :
  fexp prec emax (Zdigits2 m + e) <= E ->
  E + 1 <= emax - prec ->
  sf_exponent_le (E + 1) (binary_normalize prec emax m e false).
Proof.
  intros HE Hroom. destruct m as [|p|p]; simpl; [done|..];
    by apply binary_round_exponent.
Qed.

Lemma SFadd_exponent A x y :
  valid_binary x = true -> valid_binary y = true ->
  sf_exponent_le A x -> sf_exponent_le A y ->
  -1000 <= A -> A + 2 <= emax - prec ->
  sf_exponent_le (A + 2) (SFadd prec emax x y).
Proof.
  intros Hvx Hvy Hx Hy Hlo Hhi.
  destruct x as [sx|sx| |sx mx ex], y as [sy|sy| |sy my ey]; simpl in Hx, Hy; try done.
  - simpl. by destruct sx, sy.
  - simpl. lia.
  - simpl. lia.
  - unfold SFadd.
    replace (A + 2) with (A + 1 + 1) by lia.
    apply binary_normalize_exponent; [|lia].
    apply valid_finite_digits in Hvx, Hvy.
    set (ez := Z.min ex ey).
    destruct (shl_align_value mx ex ez ltac:(lia)) as [Ha _].
    destruct (shl_align_value my ey ez ltac:(lia)) as [Hb _].
    set (a := Z.pos (fst (shl_align mx ex ez))) in *.
    set (b := Z.pos (fst (shl_align my ey ez))) in *.
    set (K := 53 + Z.max ex ey - ez).
    assert (HK : 0 <= K) by lia.
    assert (Hmono : forall p e', Z.pos (digits2_pos p) <= 53 -> 0 <= e' -> 53 + e' <= K ->
                                  Z.pos p * 2 ^ e' < 2 ^ K).
    { intros p e' Hd He' HeK. destruct (digits2_pos_bounds p) as [_ Hp].
      assert (2 ^ Z.pos (digits2_pos p) <= 2 ^ 53) by (apply Z.pow_le_mono_r; lia).
      assert (0 < 2 ^ e') by (apply Z.pow_pos_nonneg; lia).
      assert (2 ^ 53 * 2 ^ e' <= 2 ^ K).
      { rewrite <- Z.pow_add_r by lia. apply Z.pow_le_mono_r; lia. }
      nia. }
    assert (Hab : 0 < a < 2 ^ K /\ 0 < b < 2 ^ K).
    { split; (split; [lia|]).
      - rewrite Ha. apply Hmono; lia.
      - rewrite Hb. apply Hmono; lia. }
    assert (Hd : Zdigits2 (cond_Zopp sx a + cond_Zopp sy b) <= K + 1).
    { set (m := cond_Zopp sx a + cond_Zopp sy b).
      assert (Hm : - 2 ^ (K + 1) < m < 2 ^ (K + 1)).
      { rewrite Z.pow_add_r by lia. change (2 ^ 1) with 2.
        unfold m. destruct sx, sy; simpl; lia. }
      destruct m as [|p|p] eqn:Em; simpl; [lia|..].
      - apply (Zdigits2_le (Z.pos p)); lia.
      - apply (Zdigits2_le (Z.pos p)); lia. }
    unfold K, ez, fexp, SpecFloat.emin, prec, emax in *. lia.
Qed.

Lemma exponent_le_mul A B x y :
  exponent_le A x -> exponent_le B y ->
  -1000 <= A + B -> A + B + 54 <= 971 ->
  exponent_le (A + B + 54) (x * y).
Proof.
  unfold exponent_le. intros. rewrite mul_spec.
  apply SFmul_exponent; try done; apply Prim2SF_valid.
Qed.

Lemma exponent_le_add A x y :
  exponent_le A x -> exponent_le A y ->
  -1000 <= A -> A + 2 <= 971 ->
  exponent_le (A + 2) (x + y).
Proof.
  unfold exponent_le. intros. rewrite add_spec.
  apply SFadd_exponent; try done; apply Prim2SF_valid.
Qed.

End Binary64.

Section FloatsOfPython.

Import FloatAxioms.

Lemma moderate_exponent x : moderate x = true -> exponent_le (-3) x.
Proof.
  unfold moderate, exponent_le. rewrite leb_spec, abs_spec.
  change (Prim2SF 1e15%float) with (S754_finite false 8000000000000000 (-3)).
  destruct (Prim2SF x) as [s|s| |s m e]; simpl; try done.
  unfold SFleb, SFcompare. destruct (Z.compare_spec e (-3)); try done; lia.
Qed.

Lemma exponent_le_mono B B' x : B <= B' -> exponent_le B x -> exponent_le B' x.
Proof. apply sf_exponent_le_mono. Qed.

Lemma float_of_Z_exponent z : exponent_le 11 (float_of_Z z).
Proof.
  assert (H : exponent_le 11 (of_uint63 (Uint63.of_Z (Z.abs z)))).
  { unfold exponent_le. rewrite of_uint63_spec.
    pose proof (Uint63.to_Z_bounded (Uint63.of_Z (Z.abs z))) as Hb.
    change wB with (2 ^ 63) in Hb.
    change 11 with (10 + 1). apply binary_normalize_exponent; [|done].
    pose proof (Zdigits2_le _ 63 ltac:(lia) Hb).
    unfold fexp, SpecFloat.emin, prec, emax. lia. }
  unfold float_of_Z. destruct (z <? 0); [|done].
  unfold exponent_le in *. rewrite opp_spec.
  by destruct (Prim2SF (of_uint63 (Uint63.of_Z (Z.abs z)))).
Qed.

Lemma py_int_returns B x : exponent_le B x -> is_Ok (py_int x).
Proof.
  unfold exponent_le, py_int. destruct (Prim2SF x); simpl; try done; by eexists.
Qed.

End FloatsOfPython.

Section ModerateRows.

Import Models.

Implicit Types (df X : DataFrame) (claim_data : gmap string string).

Lemma lookup_fillna_moderate (mapping : gmap string float) value c :
  moderate value = true ->
  (forall v w, mapping !! v = Some w -> PrimFloat.is_nan w || moderate w = true) ->
  moderate_column (reindex 1 (fillna value (series_map mapping [c]))).
Proof.
  intros Hvalue Hmap. destruct c as [v|x]; simpl.
  - destruct (mapping !! v) as [x|] eqn:Ev; simpl.
    + specialize (Hmap v x Ev).
      destruct (PrimFloat.is_nan x) eqn:E; [by exists value | by exists x].
    + by exists value.
  - by exists value.
Qed.

Lemma mapper_tables_moderate t :
  t ∈ mapper_tables ->
  moderate (mt_default t) = true /\
  forall v w, mt_mapping t !! v = Some w -> PrimFloat.is_nan w || moderate w = true.
Proof.
  unfold mapper_tables. intros Ht.
  repeat (apply elem_of_cons in Ht as [->|Ht]); [ .. | by apply elem_of_nil in Ht ];
    (split; [reflexivity|]); intros v w Hw;
    simpl in Hw; apply elem_of_list_to_map_2 in Hw;
    repeat (apply elem_of_cons in Hw as [[= -> ->]|Hw]); try reflexivity;
    by apply elem_of_nil in Hw.
Qed.

Lemma numeric_column_moderate claim_data t :
  t ∈ mapper_tables ->
  is_Some (claim_data !! mt_field t) ->
  exists col, get (numeric_columns (frame_of_record claim_data)) (mt_column t) = Some col /\
              moderate_column col.
Proof.
  intros Ht [v Hv]. rewrite get_numeric_column by done.
  unfold raw_column. rewrite Hv. simpl default.
  eexists. split; [reflexivity|].
  destruct (mapper_tables_moderate t Ht). by apply lookup_fillna_moderate.
Qed.

Lemma astype_int_moderate (b : bool) : moderate_column (reindex 1 (astype_int [b])).
Proof. destruct b; eexists; split; reflexivity. Qed.

(** The five flags of a one-row frame are 0 or 1. *)
Lemma business_columns_flags_moderate df df' flag :
  one_row df ->
  business_columns df = Ok df' ->
  flag ∈ map snd flag_fields ->
  exists col, get df' flag = Some col /\ moderate_column col.
Proof.
  intros [Hi Hlen] Hdf Hflag. unfold business_columns, get_or_str in Hdf.
  destruct (get df "Days_Policy_Claim") as [s1|] eqn:E1; [|done].
  simpl in Hdf. rewrite !get_set_series_ne in Hdf
    by first [repeat apply index_set_series; assumption | discriminate].
  destruct (get df "VehiclePrice") as [s2|] eqn:E2; [|done].
  simpl in Hdf. rewrite !get_set_series_ne in Hdf
    by first [repeat apply index_set_series; assumption | discriminate].
  destruct (get df "AgeOfPolicyHolder") as [s3|] eqn:E3; [|done].
  simpl in Hdf. rewrite !get_set_series_ne in Hdf
    by first [repeat apply index_set_series; assumption | discriminate].
  destruct (get df "PolicyType") as [s4|] eqn:E4; [|done].
  simpl in Hdf. rewrite !get_set_series_ne in Hdf
    by first [repeat apply index_set_series; assumption | discriminate].
  destruct (get df "Make") as [s5|] eqn:E5; [|done].
  simpl in Hdf. injection Hdf as <-.
  apply Hlen in E1, E2, E3, E4, E5.
  destruct s1 as [|c1 [|]]; try done. destruct s2 as [|c2 [|]]; try done.
  destruct s3 as [|c3 [|]]; try done. destruct s4 as [|c4 [|]]; try done.
  destruct s5 as [|c5 [|]]; try done.
  simpl in Hflag.
  repeat (apply elem_of_cons in Hflag as [->|Hflag]);
    [ .. | by apply elem_of_nil in Hflag ];
    (eexists; split;
     [ repeat first
         [ rewrite get_set_series_eq
             by (repeat apply index_set_series; assumption)
         | rewrite get_set_series_ne
             by first [repeat apply index_set_series; assumption | discriminate] ];
       reflexivity
     | apply astype_int_moderate ]).
Qed.

(** Selecting features that are all moderate columns of the frame
    gives, after the first of them, a row of moderate numbers. *)
Lemma select_fold_moderate df l X :
  (forall f, f ∈ l -> exists col, get df f = Some col /\ moderate_column col) ->
  (index X = 0%nat /\ columns X = []) \/
  (index X = 1%nat /\ Forall (fun kc => moderate_column kc.2) (columns X)) ->
  Forall (fun kc => moderate_column kc.2) (columns (fold_left (select_step df) l X)).
Proof.
  revert X. induction l as [|f l IH]; intros X Hl HX; simpl.
  - destruct HX as [[_ ->]|[_ Hall]]; [constructor|done].
  - destruct (Hl f) as (col & Hcol & x & -> & Hx); [by left|].
    apply IH.
    + intros f' Hf'. apply Hl. by right.
    + right. unfold select_step. rewrite Hcol.
      destruct HX as [[H0 Hnil]|[H1 Hall]].
      * destruct X as [n cols]. simpl in H0, Hnil. subst n cols.
        split; [done|]. constructor; [by exists x|constructor].
      * rewrite set_series_one by done. simpl.
        split; [done|]. apply Forall_dict_set; [by exists x|done].
Qed.

Lemma get_moderate X k col :
  Forall (fun kc => moderate_column kc.2) (columns X) ->
  get X k = Some col -> moderate_column col.
Proof.
  unfold get. induction (columns X) as [|[k' c'] d IH]; simpl; [done|].
  intros [Hhd Htl]%Forall_cons_1.
  destruct (String.eqb k' k); [by intros [= <-]|by apply IH].
Qed.

(** The scorecard arithmetic on a row of moderate numbers: each
    contribution and each partial total is finite, so no [int] raises. *)
Lemma scorecard_step_returns X total bd row T :
  Forall (fun kc => moderate_column kc.2) (columns X) ->
  exponent_le T total ->
  62 <= T -> T + 2 <= 971 ->
  exists total' bd',
    scorecard_step X (total, bd) row = Ok (total', bd') /\ exponent_le (T + 2) total'.
Proof.
  intros HX Htotal HT Hroom. destruct row as [variable points].
  unfold scorecard_step.
  destruct (get X variable) as [col|] eqn:Ecol.
  - destruct (get_moderate X variable col HX Ecol) as (x & -> & Hx).
    cbn [iloc0 contribution_of mbind result_bind].
    assert (Hc : exponent_le 62 (x * float_of_Z points)).
    { change 62 with (-3 + 11 + 54).
      apply exponent_le_mul; [by apply moderate_exponent|apply float_of_Z_exponent|lia..]. }
    assert (Hsum : exponent_le (T + 2) (total + x * float_of_Z points)).
    { apply exponent_le_add; [done| |lia..]. by eapply exponent_le_mono. }
    destruct (PrimFloat.ltb 0.5 (PrimFloat.abs (x * float_of_Z points))).
    + destruct (py_int_returns _ _ Hc) as [c ->]. by eexists _, _.
    + by eexists _, _.
  - exists total, bd. split; [done|]. eapply exponent_le_mono; [|exact Htotal]. lia.
Qed.

Lemma scorecard_fold_returns X rows : forall total bd T,
  Forall (fun kc => moderate_column kc.2) (columns X) ->
  exponent_le T total ->
  62 <= T ->
  T + 2 * Z.of_nat (length rows) <= 971 ->
  exists total' bd',
    foldlM (scorecard_step X) (total, bd) rows = Ok (total', bd') /\
    exponent_le (T + 2 * Z.of_nat (length rows)) total'.
Proof.
  induction rows as [|row rows IH]; intros total bd T HX Htotal HT Hroom.
  - exists total, bd. split; [done|]. simpl. by rewrite Z.add_0_r.
  - cbn [foldlM length] in *. rewrite Nat2Z.inj_succ in *.
    destruct (scorecard_step_returns X total bd row T) as (t1 & bd1 & -> & Ht1);
      [done|done|lia|lia|].
    cbn [mbind result_bind].
    destruct (IH t1 bd1 (T + 2)) as (t' & bd' & -> & Ht'); [done|done|lia|lia|].
    exists t', bd'. split; [done|].
    eapply exponent_le_mono; [|exact Ht']. lia.
Qed.

Lemma calculate_scorecard_points_returns self X :
  moderate (base_points self) = true ->
  (length (scorecard self) <= 400)%nat ->
  Forall (fun kc => moderate_column kc.2) (columns X) ->
  is_Ok (calculate_scorecard_points self X).
Proof.
  intros Hbase Hlen HX. unfold calculate_scorecard_points.
  apply moderate_exponent in Hbase.
  destruct (py_int_returns _ _ Hbase) as [b ->]. cbn [mbind result_bind].
  destruct (scorecard_fold_returns X (scorecard self) (base_points self)
              (dict_set "Base Score" b []) 62) as (t & bd & -> & Ht);
    [done|eapply exponent_le_mono; [|exact Hbase]; lia|lia|lia|].
  cbn [mbind result_bind fst]. destruct (py_int_returns _ _ Ht) as [z ->]. by eexists.
Qed.

End ModerateRows.

(** * Properties of the trained engine, and of both engines *)

(** Closes [k ∉ l] for a string and a list of strings that are given. *)
Ltac not_among :=
  let H := fresh in
  simpl; intros H;
  repeat (apply elem_of_cons in H as [H|H]; [discriminate H|]);
  by apply elem_of_nil in H.

Section TrainedEngine.

Import Models.

Variable self : FraudDetectionEngine.

Implicit Types (claim_data : gmap string string).

Lemma flag_fields_raw field flag :
  (field, flag) ∈ flag_fields -> field ∉ map mt_column mapper_tables.
Proof.
  unfold flag_fields. intros Hin.
  repeat (apply elem_of_cons in Hin as [[= -> ->]|Hin]); try not_among.
  by apply elem_of_nil in Hin.
Qed.

Lemma categorical_vars_raw var :
  var ∈ categorical_vars ->
  str_endswith "_WoE" var = false /\
  (var ∉ map snd flag_fields) /\ (var ∉ map mt_column mapper_tables).
Proof.
  unfold categorical_vars. intros Hin.
  repeat (apply elem_of_cons in Hin as [->|Hin]);
    try (split; [reflexivity|split; not_among]).
  by apply elem_of_nil in Hin.
Qed.

Lemma mapper_columns_raw t :
  t ∈ mapper_tables ->
  str_endswith "_WoE" (mt_column t) = false /\ (mt_column t ∉ map snd flag_fields).
Proof.
  unfold mapper_tables. intros Hin.
  repeat (apply elem_of_cons in Hin as [->|Hin]);
    try (split; [reflexivity|not_among]).
  by apply elem_of_nil in Hin.
Qed.

(** The frame after the numeric columns and the business flags. *)
Lemma derived_frame claim_data :
  Forall (fun ff => is_Some (claim_data !! ff.1)) flag_fields ->
  exists df,
    business_columns (numeric_columns (frame_of_record claim_data)) = Ok df /\
    one_row df /\
    (forall k, k ∉ map snd flag_fields -> k ∉ map mt_column mapper_tables ->
               get df k = raw_column claim_data k) /\
    (forall t, t ∈ mapper_tables ->
               get df (mt_column t) =
                 get (numeric_columns (frame_of_record claim_data)) (mt_column t)).
Proof.
  intros Hfields.
  pose proof (one_row_numeric_columns _ (one_row_frame_of_record claim_data)) as Hone.
  destruct (business_columns_ok (numeric_columns (frame_of_record claim_data)))
    as (df & Hdf & Hi & Hother).
  - apply Hone.
  - apply Forall_forall. intros [field flag] Hin.
    rewrite Forall_forall in Hfields. destruct (Hfields _ Hin) as [v Hv]. simpl in *.
    rewrite get_numeric_columns_other, get_frame_of_record, Hv;
      [by exists [Str v] | done | by eapply flag_fields_raw].
  - exists df. split; [done|]. split; [by eapply one_row_business_columns|]. split.
    + intros k Hk1 Hk2. rewrite Hother by done.
      rewrite get_numeric_columns_other by (done || apply Hone).
      apply get_frame_of_record.
    + intros t Ht. apply Hother. by apply mapper_columns_raw.
Qed.


(** The frame of features of a claim record that has the fields of the
    business flags: each selected column is the column derived for it. *)
Lemma prepare_features_Ok claim_data :
  Forall (fun ff => is_Some (claim_data !! ff.1)) flag_fields ->
  exists df X,
    business_columns (numeric_columns (frame_of_record claim_data)) = Ok df /\
    prepare_features self claim_data = Ok X /\
    forall f col, f ∈ feature_names self ->
                  get (woe_columns self df) f = Some col ->
                  index X = 1%nat /\ get X f = Some col.
Proof.
  intros Hfields.
  destruct (derived_frame claim_data Hfields) as (df & Hdf & Hone & _).
  exists df, (select_features self (woe_columns self df)).
  split; [done|]. split.
  - unfold prepare_features. by rewrite Hdf.
  - intros f col Hf Hcol.
    destruct (one_row_woe_fold (woe_mappings self) df Hone) as [Hi Hlen].
    apply select_fold_get; try done. by left.
Qed.

Lemma flag_fields_categorical claim_data :
  Forall (fun k => is_Some (claim_data !! k)) categorical_vars ->
  Forall (fun ff => is_Some (claim_data !! ff.1)) flag_fields.
Proof.
  rewrite !Forall_forall. intros H [field flag] Hin. apply H.
  unfold flag_fields in Hin.
  repeat (apply elem_of_cons in Hin as [[= -> ->]|Hin]);
    [ unfold categorical_vars; simpl; repeat constructor .. | by apply elem_of_nil in Hin ].
Qed.

Lemma mapper_fields_categorical t : t ∈ mapper_tables -> mt_field t ∈ categorical_vars.
Proof.
  unfold mapper_tables. intros Ht.
  repeat (apply elem_of_cons in Ht as [->|Ht]);
    [ unfold categorical_vars; simpl; repeat constructor .. | by apply elem_of_nil in Ht ].
Qed.

Lemma flags_not_woe flag :
  flag ∈ map snd flag_fields -> str_endswith "_WoE" flag = false.
Proof.
  simpl. intros Hin.
  repeat (apply elem_of_cons in Hin as [->|Hin]); try reflexivity.
  by apply elem_of_nil in Hin.
Qed.

(** Every derived feature is a number column of the frame that the
    selection reads. *)
Lemma derived_feature_number claim_data df f :
  NoDup (dict_keys (woe_mappings self)) ->
  Forall (fun k => is_Some (claim_data !! k)) categorical_vars ->
  business_columns (numeric_columns (frame_of_record claim_data)) = Ok df ->
  derived_feature self f ->
  exists col, get (woe_columns self df) f = Some col /\ number_column col.
Proof.
  intros Hnd Hall Hdf Hf.
  destruct (derived_frame claim_data (flag_fields_categorical _ Hall))
    as (df' & Hdf' & Hone & Hraw & Hnum).
  rewrite Hdf in Hdf'. injection Hdf' as <-.
  rewrite Forall_forall in Hall. unfold woe_columns.
  destruct Hf as [Hf|[Hf|(var & Hvar & Hkey & ->)]].
  - apply list_elem_of_fmap in Hf as (t & -> & Ht).
    destruct (mapper_columns_raw t Ht) as [Hends _].
    rewrite get_woe_fold_not_woe; [|apply Hone|done].
    rewrite Hnum by done. apply numeric_column_number; [done|].
    apply Hall. by apply mapper_fields_categorical.
  - rewrite get_woe_fold_not_woe; [|apply Hone|by apply flags_not_woe].
    eapply business_columns_flags; [|exact Hdf|done].
    apply one_row_numeric_columns, one_row_frame_of_record.
  - apply list_elem_of_fmap in Hkey as ([var' woe_dict] & Hvar' & Hin).
    simpl in Hvar'. subst var'.
    destruct (categorical_vars_raw var Hvar) as (Hends & Hflag & Hcol).
    rewrite (get_woe_fold _ _ var woe_dict); [|apply Hone|done..].
    rewrite Hraw by done. unfold raw_column.
    destruct (Hall var Hvar) as [v ->]. simpl.
    eexists. split; [reflexivity|].
    by apply (lookup_fillna_number woe_dict 0%float (Str v)).
Qed.

Lemma moderate_engine_parts :
  moderate_engine self = true ->
  moderate (base_points self) = true /\
  (forall var woe_dict v w,
      (var, woe_dict) ∈ woe_mappings self -> woe_dict !! v = Some w ->
      PrimFloat.is_nan w || moderate w = true) /\
  (length (scorecard self) <= 400)%nat.
Proof.
  unfold moderate_engine.
  intros [[[Hbase Hwoe]%andb_prop _]%andb_prop Hlen]%andb_prop.
  split; [done|]. split; [|by apply Nat.leb_le].
  intros var woe_dict v w Hin Hw.
  rewrite forallb_forall in Hwoe.
  specialize (Hwoe (var, woe_dict) ltac:(by apply list_elem_of_In)). simpl in Hwoe.
  rewrite forallb_forall in Hwoe.
  apply (Hwoe (v, w)). apply list_elem_of_In. by apply elem_of_map_to_list.
Qed.

(** Every derived feature is a column of one moderate number, for an
    engine with moderate weights. *)
Lemma derived_feature_moderate claim_data df f :
  NoDup (dict_keys (woe_mappings self)) ->
  Forall (fun k => is_Some (claim_data !! k)) categorical_vars ->
  moderate_engine self = true ->
  business_columns (numeric_columns (frame_of_record claim_data)) = Ok df ->
  derived_feature self f ->
  exists col, get (woe_columns self df) f = Some col /\ moderate_column col.
Proof.
  intros Hnd Hall Hmod Hdf Hf.
  destruct (moderate_engine_parts Hmod) as (_ & Hweights & _).
  destruct (derived_frame claim_data (flag_fields_categorical _ Hall))
    as (df' & Hdf' & Hone & Hraw & Hnum).
  rewrite Hdf in Hdf'. injection Hdf' as <-.
  rewrite Forall_forall in Hall. unfold woe_columns.
  destruct Hf as [Hf|[Hf|(var & Hvar & Hkey & ->)]].
  - apply list_elem_of_fmap in Hf as (t & -> & Ht).
    destruct (mapper_columns_raw t Ht) as [Hends _].
    rewrite get_woe_fold_not_woe; [|apply Hone|done].
    rewrite Hnum by done. apply numeric_column_moderate; [done|].
    apply Hall. by apply mapper_fields_categorical.
  - rewrite get_woe_fold_not_woe; [|apply Hone|by apply flags_not_woe].
    eapply business_columns_flags_moderate; [|exact Hdf|done].
    apply one_row_numeric_columns, one_row_frame_of_record.
  - apply list_elem_of_fmap in Hkey as ([var' woe_dict] & Hvar' & Hin).
    simpl in Hvar'. subst var'.
    destruct (categorical_vars_raw var Hvar) as (Hends & Hflag & Hcol).
    rewrite (get_woe_fold _ _ var woe_dict); [|apply Hone|done..].
    rewrite Hraw by done. unfold raw_column.
    destruct (Hall var Hvar) as [v ->]. simpl.
    eexists. split; [reflexivity|].
    apply (lookup_fillna_moderate woe_dict 0%float (Str v)); [reflexivity|].
    intros v' w Hw. by apply (Hweights var woe_dict v' w).
Qed.


(** C1.  Either engine returns one of the risk levels HIGH, MEDIUM, LOW
    and ERROR.  The fallback engine always, and the trained engine when
    its [try] block returns, give HIGH exactly for a score of at most
    580, MEDIUM exactly for a score from 581 to 620 and LOW exactly for
    a score above 620, and never ERROR; the trained engine gives ERROR
    when its [try] block raises, and then returns the error result. *)
Theorem risk_level_follows_score claim_data :
  let rf := Main.calculate_fraud_score claim_data in
  let rt := calculate_fraud_score self claim_data in
  (risk_level rf ∈ ["HIGH"; "MEDIUM"; "LOW"] /\ level_follows_score rf) /\
  risk_level rt ∈ ["HIGH"; "MEDIUM"; "LOW"; "ERROR"] /\
  match try_score self claim_data with
  | Ok r => rt = r /\ risk_level r ∈ ["HIGH"; "MEDIUM"; "LOW"] /\ level_follows_score r
  | Raise _ => rt = error_result /\ risk_level rt = "ERROR"
  end.
Proof.
  cbv zeta. split.
  { destruct (fallback_level_follows_score claim_data). by split. }
  unfold calculate_fraud_score.
  destruct (try_score self claim_data) as [r|e] eqn:E.
  - destruct (try_score_Ok self claim_data r E) as (X & _ & _ & _ & _ & Hlevel & Hin).
    split; [|done].
    repeat (apply elem_of_cons in Hin as [->|Hin]); [repeat constructor..|].
    by apply elem_of_nil in Hin.
  - split; [repeat constructor|done].
Qed.

(** C4.  When the feature derivation or the call of a predictor raises,
    [calculate_fraud_score] of the trained engine returns the error
    result: probability 0.05, score 650, level ERROR, confidence Low,
    one risk factor, the recommendation of a manual review and a model
    version that ends in "-error". *)
Theorem failure_gives_error_result claim_data :
  is_Raise (prepare_features self claim_data) \/
  (exists X, prepare_features self claim_data = Ok X /\
     (is_Raise (logistic_model self X) \/ is_Raise (xgb_model self X))) ->
  let r := calculate_fraud_score self claim_data in
  r = error_result /\
  fraud_probability r = 0.05%float /\
  risk_score r = 650 /\
  risk_level r = "ERROR" /\
  confidence r = "Low" /\
  length (key_risk_factors r) = 1%nat /\
  business_recommendation r = "MANUAL REVIEW REQUIRED - System error" /\
  str_endswith "-error" (model_version r) = true.
Proof.
  intros H. cbv zeta.
  assert (is_Raise (try_score self claim_data)) as [e He].
  { apply try_score_Raise. destruct H as [H|(X & HX & [H|H])]; [by left|..];
      right; exists X; (split; [done|]); tauto. }
  unfold calculate_fraud_score. rewrite He. by repeat split.
Qed.

(** C5, as the code has it.  The breakdown of the fallback engine starts
    with "Base Score" and the base score 650.  The breakdown of the
    trained engine, when the [try] block returns, starts with "Base
    Score"; the entry holds the integer part of the base points, as long
    as no variable of the scorecard is displayed as "Base Score".  When
    the [try] block raises, the breakdown is the single entry "Error"
    with 0. *)
Theorem breakdown_starts_with_base_score claim_data :
  head (scorecard_breakdown (Main.calculate_fraud_score claim_data)) =
    Some ("Base Score", Main.base_score) /\
  match try_score self claim_data with
  | Ok r =>
      calculate_fraud_score self claim_data = r /\
      exists b v,
        py_int (base_points self) = Ok b /\
        head (scorecard_breakdown r) = Some ("Base Score", v) /\
        (Forall (fun row => display_name row.1 <> "Base Score") (scorecard self) -> v = b)
  | Raise _ =>
      scorecard_breakdown (calculate_fraud_score self claim_data) = [("Error", 0)]
  end.
Proof.
  split; [apply fallback_breakdown_head|].
  unfold calculate_fraud_score.
  destruct (try_score self claim_data) as [r|e] eqn:E; [|done].
  split; [done|].
  destruct (try_score_Ok self claim_data r E) as (X & _ & _ & _ & Hpoints & _).
  by apply (calculate_scorecard_points_head self X (risk_score r)).
Qed.

(** C7, as the code has it.  When a claim record lacks a field that a
    business flag reads, the feature derivation raises [AttributeError]
    on the default [''] of [df.get]: no flag is derived, and the claim
    gets the error result. *)
Theorem missing_flag_field_raises claim_data field flag :
  (field, flag) ∈ flag_fields ->
  claim_data !! field = None ->
  prepare_features self claim_data = Raise AttributeError /\
  calculate_fraud_score self claim_data = error_result.
Proof.
  intros Hin Hnone.
  assert (prepare_features self claim_data = Raise AttributeError) as E.
  { unfold prepare_features.
    rewrite (business_columns_raise _ field flag); try done.
    rewrite get_numeric_columns_other, get_frame_of_record, Hnone;
      [done | done | by eapply flag_fields_raw]. }
  split; [done|].
  unfold calculate_fraud_score, try_score. by rewrite E.
Qed.

(** C8, as the code has it.  When a claim record lacks the field of a
    table of the category mapper, the mapped and filled series is empty,
    and the numeric column that the frame gets from it holds NaN, not
    the default of the table. *)
Theorem missing_mapper_field_gives_nan claim_data t :
  t ∈ mapper_tables ->
  claim_data !! mt_field t = None ->
  mapped (frame_of_record claim_data) (mt_field t) (mt_mapping t) (mt_default t) = [] /\
  get (numeric_columns (frame_of_record claim_data)) (mt_column t) = Some [Num nan] /\
  Some [Num nan] <> Some [Num (mt_default t)].
Proof.
  intros Ht Hnone.
  destruct (mapper_missing_field claim_data t Ht Hnone) as [H1 H2].
  split; [done|]. split; [done|].
  intros [= E].
  assert (PrimFloat.is_nan (mt_default t) = true) as Hnan by (by rewrite <- E).
  unfold mapper_tables in Ht.
  repeat (apply elem_of_cons in Ht as [->|Ht]); try discriminate Hnan.
  by apply elem_of_nil in Ht.
Qed.

End TrainedEngine.

(** * The properties on sample claims *)

Section OnSamples.

Import Models Samples.



Lemma failure_gives_error_result_witness :
  calculate_fraud_score engine (without "Make") = error_result /\
  calculate_fraud_score engine (without "AgeOfVehicle") = error_result.
Proof.
  split.
  - eapply proj1, (failure_gives_error_result engine (without "Make")).
    left. exists AttributeError. vm_compute. reflexivity.
  - eapply proj1, (failure_gives_error_result engine (without "AgeOfVehicle")).
    right. eexists. split; [vm_compute; reflexivity|].
    left. exists ModelError. vm_compute. reflexivity.
Defined.

(** C5, as the specification has it, fails: the breakdown that the
    trained engine returns for a claim record without its Make is the
    single entry "Error", and "Base Score" is no key of it. *)
Lemma error_breakdown_has_no_base_score :
  let r := calculate_fraud_score engine (without "Make") in
  scorecard_breakdown r = [("Error", 0)] /\
  dict_get "Base Score" (scorecard_breakdown r) = None.
Proof. cbv zeta. vm_compute. split; reflexivity. Qed.

Lemma missing_flag_field_raises_witness :
  prepare_features engine (without "Days_Policy_Claim") = Raise AttributeError /\
  calculate_fraud_score engine (without "Days_Policy_Claim") = error_result.
Proof.
  apply (missing_flag_field_raises engine (without "Days_Policy_Claim")
           "Days_Policy_Claim" "Claim_Urgency");
    [repeat constructor | reflexivity].
Defined.

Lemma missing_mapper_field_gives_nan_witness :
  mapped (frame_of_record (without "AgeOfVehicle")) "AgeOfVehicle"
    vehicle_age_mapping 5%float = [] /\
  get (numeric_columns (frame_of_record (without "AgeOfVehicle")))
    "AgeOfVehicle_Numeric" = Some [Num nan] /\
  Some [Num nan] <> Some [Num 5%float].
Proof.
  apply (missing_mapper_field_gives_nan (without "AgeOfVehicle")
           (mkMapperTable "AgeOfVehicle" "AgeOfVehicle_Numeric" vehicle_age_mapping 5%float));
    [repeat constructor | reflexivity].
Defined.

(** The same claim record through the whole trained engine: the NaN
    reaches the frame of features. *)
Example missing_vehicle_age_features :
  exists X,
    prepare_features engine (without "AgeOfVehicle") = Ok X /\
    get X "AgeOfVehicle_Numeric" = Some [Num nan].
Proof. eexists. split; vm_compute; reflexivity. Qed.

(** Scenario 2 of the specification on the fallback engine. *)
Example fallback_scenario2 :
  let r := Main.calculate_fraud_score
             (list_to_map
                [("Days_Policy_Claim", "more than 30"); ("PolicyType", "Sedan - Collision");
                 ("Make", "Honda"); ("AgeOfPolicyHolder", "31 to 35");
                 ("VehiclePrice", "20000 to 29000"); ("AccidentArea", "Urban")]) in
  risk_score r = 677 /\ risk_level r = "LOW".
Proof. cbv zeta. vm_compute. split; reflexivity. Qed.

End OnSamples.

(** * Further properties of the fallback engine *)

(** The six tests of the rules on a claim record, as six booleans. *)
Ltac abstract_rules claim :=
  generalize (eq_str (claim !! "Days_Policy_Claim") "1 to 7"),
    (str_contains "All Perils" (default "" (claim !! "PolicyType"))),
    (in_list (claim !! "Make") ["BMW"; "Mercedes"; "Audi"]),
    (in_list (claim !! "AgeOfPolicyHolder") ["18 to 20"; "21 to 25"]),
    (in_list (claim !! "VehiclePrice") ["60000 to 69000"; "more than 69000"]),
    (eq_str (claim !! "AccidentArea") "Rural").

Section FallbackRules.

Import Main.

Implicit Types (claim_data : gmap string string).

Ltac split_triggered claim :=
  unfold calculate_fraud_score, apply_business_rules, triggered;
  abstract_rules claim; intros [] [] [] [] [] [].

(** X1.  The breakdown of the fallback engine has the seven entries of
    its rules in their fixed order, and each rule entry depends on its
    own rule only: -25 or 10, -15 or 5, -20 or 5, -15 or 5, -10 or 0,
    -8 or 2. *)
Theorem fallback_breakdown_by_rule claim_data :
  exists b1 b2 b3 b4 b5 b6,
    triggered claim_data = [b1; b2; b3; b4; b5; b6] /\
    scorecard_breakdown (calculate_fraud_score claim_data) =
      [("Base Score", 650);
       ("Claim Timing", if b1 then -25 else 10);
       ("Policy Type", if b2 then -15 else 5);
       ("Vehicle Make", if b3 then -20 else 5);
       ("Driver Age", if b4 then -15 else 5);
       ("Vehicle Value", if b5 then -10 else 0);
       ("Accident Area", if b6 then -8 else 2)].
Proof.
  split_triggered claim_data; do 6 eexists; split; reflexivity.
Qed.

(** X2.  The score of the fallback engine lies between 557 and 677, and
    it is 677 exactly when no risk factor is listed. *)
Theorem fallback_score_bounds claim_data :
  let r := calculate_fraud_score claim_data in
  557 <= risk_score r <= 677 /\
  (risk_score r = 677 <-> key_risk_factors r = []).
Proof.
  cbv zeta. split_triggered claim_data; vm_compute;
    (split; [split; discriminate | split; first [reflexivity | discriminate]]).
Qed.

(** X3.  The fallback engine lists one risk factor per triggered rule,
    in the order of the rules, up to four; and the negative entries of
    its breakdown are as many as the triggered rules. *)
Theorem fallback_factors_count claim_data :
  let r := calculate_fraud_score claim_data in
  let n := count_true (triggered claim_data) in
  length (key_risk_factors r) = Nat.min 4 n /\
  length (filter (fun kv => kv.2 < 0) (scorecard_breakdown r)) = n.
Proof.
  cbv zeta. split_triggered claim_data; vm_compute; split; reflexivity.
Qed.

(** X4.  Tier and probability of the fallback engine go together: a HIGH
    result has four risk factors and a probability of at least 0.495, a
    LOW result a probability of at most 0.345. *)
Theorem fallback_tier_and_probability claim_data :
  let r := calculate_fraud_score claim_data in
  (if String.eqb (risk_level r) "HIGH"
   then length (key_risk_factors r) = 4%nat /\
        PrimFloat.leb 0.495%float (fraud_probability r) = true
   else True) /\
  (if String.eqb (risk_level r) "LOW"
   then PrimFloat.leb (fraud_probability r) 0.345%float = true
   else True).
Proof.
  cbv zeta. split_triggered claim_data; vm_compute; repeat split; reflexivity.
Qed.

(** X5.  Triggering more rules never raises the score of the fallback
    engine and never lowers its probability: when every rule that a
    first claim record triggers is triggered by a second one, the second
    gets a score that is no higher and a probability that is no lower. *)
Theorem fallback_monotone (c1 c2 : gmap string string) :
  Forall2 (fun b1 b2 : bool => b1 = true -> b2 = true) (triggered c1) (triggered c2) ->
  let r1 := calculate_fraud_score c1 in
  let r2 := calculate_fraud_score c2 in
  risk_score r2 <= risk_score r1 /\
  PrimFloat.leb (fraud_probability r1) (fraud_probability r2) = true.
Proof.
  unfold calculate_fraud_score, apply_business_rules, triggered. cbv zeta.
  abstract_rules c1. abstract_rules c2.
  intros b1' b2' b3' b4' b5' b6' b1 b2 b3 b4 b5 b6 H.
  repeat match goal with
         | H : Forall2 _ (_ :: _) (_ :: _) |- _ =>
             apply Forall2_cons in H; destruct H as [? H]
         end.
  clear H.
  repeat match goal with
         | H : ?e1 = true -> ?e2 = true |- _ =>
             destruct e1, e2;
             [ | exfalso; specialize (H eq_refl); discriminate H | | ];
             clear H
         end;
    vm_compute; (split; [discriminate | reflexivity]).
Qed.

Lemma fallback_monotone_witness :
  let r1 := calculate_fraud_score (Samples.without "Days_Policy_Claim") in
  let r2 := calculate_fraud_score Samples.test_claim in
  risk_score r2 <= risk_score r1 /\
  PrimFloat.leb (fraud_probability r1) (fraud_probability r2) = true.
Proof.
  apply (fallback_monotone (Samples.without "Days_Policy_Claim") Samples.test_claim).
  vm_compute. repeat constructor; discriminate.
Defined.

End FallbackRules.

(** * Properties of the risk factor explainer *)

Section Explainer.

Import Models.

Implicit Types (claim_data : gmap string string) (fraud_prob : float).

Ltac split_explainer claim :=
  unfold identify_risk_factors, triggered;
  abstract_rules claim; intros [] [] [] [] [] [].

(** X6.  [identify_risk_factors] returns at most four factors: one per
    triggered rule, up to four; and when no rule is triggered, the one
    message of an elevated combination if the probability is above 0.3,
    and nothing otherwise. *)
Theorem explainer_factors claim_data fraud_prob :
  let n := count_true (triggered claim_data) in
  let l := identify_risk_factors claim_data fraud_prob in
  (length l <= 4)%nat /\
  (if (n =? 0)%nat
   then l = (if PrimFloat.ltb 0.3%float fraud_prob
             then ["⚠️ Combinación de factores genera riesgo elevado"]
             else [])
   else length l = Nat.min 4 n).
Proof.
  cbv zeta. split_explainer claim_data; simpl;
    try (destruct (PrimFloat.ltb 0.3%float fraud_prob); simpl);
    (split; [lia | reflexivity]).
Qed.

(** X7.  The explainer of the trained engine and the rules of the
    fallback engine stay consistent: when some rule is triggered, the
    explainer lists the factors that the fallback engine lists, in the
    same order, the two factors of the policy and of the young driver in
    other words. *)
Theorem explainer_agrees_with_fallback claim_data fraud_prob :
  if (count_true (triggered claim_data) =? 0)%nat
  then key_risk_factors (Main.calculate_fraud_score claim_data) = []
  else map reword (identify_risk_factors claim_data fraud_prob) =
       key_risk_factors (Main.calculate_fraud_score claim_data).
Proof.
  unfold Main.calculate_fraud_score, Main.apply_business_rules.
  split_explainer claim_data; reflexivity.
Qed.

End Explainer.

(** * Further properties of the feature derivation *)

Section Derivation.

Import Models Api.

Variable self : FraudDetectionEngine.

Implicit Types (claim_data : gmap string string).

Lemma prepare_features_missing_field claim_data field flag :
  (field, flag) ∈ flag_fields ->
  claim_data !! field = None ->
  prepare_features self claim_data = Raise AttributeError.
Proof.
  intros Hin Hnone. unfold prepare_features.
  rewrite (business_columns_raise _ field flag); try done.
  rewrite get_numeric_columns_other, get_frame_of_record, Hnone;
    [done | done | by eapply flag_fields_raw].
Qed.

(** X8.  The feature derivation raises exactly when the claim record
    lacks a field that a business flag reads, and what it raises is
    [AttributeError]; a missing field of another kind does not stop
    it. *)
Theorem prepare_features_outcome claim_data :
  match prepare_features self claim_data with
  | Ok _ => Forall (fun ff => is_Some (claim_data !! ff.1)) flag_fields
  | Raise e =>
      e = AttributeError /\
      Exists (fun ff => claim_data !! ff.1 = None) flag_fields
  end.
Proof.
  destruct (decide (Forall (fun ff => is_Some (claim_data !! ff.1)) flag_fields))
    as [Hall|Hnot].
  - destruct (prepare_features_Ok self claim_data Hall) as (df & X & _ & -> & _). done.
  - apply not_Forall_Exists in Hnot; [|apply _].
    assert (Exists (fun ff => claim_data !! ff.1 = None) flag_fields) as Hex.
    { eapply Exists_impl; [exact Hnot|]. intros ff Hff. simpl in Hff.
      destruct (claim_data !! ff.1); [|done]. exfalso. apply Hff. eauto. }
    pose proof Hex as Hex'.
    apply Exists_exists in Hex' as ([field flag] & Hin & Hnone).
    by rewrite (prepare_features_missing_field claim_data field flag).
Qed.

Lemma ClaimData_dict_fields (c : ClaimData) :
  Forall (fun k => is_Some (ClaimData_dict c !! k)) categorical_vars.
Proof. unfold categorical_vars. repeat constructor; eexists; reflexivity. Qed.

Lemma numeric_row_of_derived claim_data df :
  NoDup (dict_keys (woe_mappings self)) ->
  Forall (fun k => is_Some (claim_data !! k)) categorical_vars ->
  business_columns (numeric_columns (frame_of_record claim_data)) = Ok df ->
  feature_names self <> [] ->
  Forall (derived_feature self) (feature_names self) ->
  numeric_row (select_features self (woe_columns self df)) = true.
Proof.
  intros Hnd Hall Hdf Hne Hderived.
  destruct (select_fold_numbers (woe_columns self df) (feature_names self) empty_frame)
    as [Hi Hcols].
  - intros f Hf. rewrite Forall_forall in Hderived.
    by eapply derived_feature_number; [| | |apply Hderived].
  - by left.
  - by left.
  - by apply numeric_row_intro.
Qed.

(** X9.  A claim of the API has all its fields, so its feature
    derivation never raises: [predict_fraud] on the trained engine
    returns the error result only when a predictor or the scorecard
    arithmetic raises; and the frame that they get is one row of numbers
    without NaN, when the expected features are derived ones and the
    tables are one per variable. *)
Theorem api_claim_is_derived (c : ClaimData) :
  exists X,
    prepare_features self (ClaimData_dict c) = Ok X /\
    (NoDup (dict_keys (woe_mappings self)) ->
     feature_names self <> [] ->
     Forall (derived_feature self) (feature_names self) ->
     numeric_row X = true) /\
    (risk_level (predict_fraud (Trained self) c) = "ERROR" ->
     is_Raise (logistic_model self X) \/ is_Raise (xgb_model self X) \/
     is_Raise (calculate_scorecard_points self X)).
Proof.
  pose proof (ClaimData_dict_fields c) as Hall.
  destruct (prepare_features_Ok self (ClaimData_dict c)
              (flag_fields_categorical _ Hall)) as (df & X & Hdf & HX & _).
  exists X. split; [done|]. split.
  - intros Hnd Hne Hderived.
    assert (X = select_features self (woe_columns self df)) as ->.
    { unfold prepare_features in HX. rewrite Hdf in HX. simpl in HX. congruence. }
    by apply (numeric_row_of_derived (ClaimData_dict c)).
  - unfold predict_fraud, calculate_fraud_score, Models.calculate_fraud_score, try_score.
    rewrite HX. simpl.
    destruct (logistic_model self X) as [p1|e1]; simpl; [|intros _; left; by exists e1].
    destruct (xgb_model self X) as [p2|e2]; simpl; [|intros _; right; left; by exists e2].
    destruct (calculate_scorecard_points self X) as [[t bd]|e3]; simpl;
      [|intros _; right; right; by exists e3].
    destruct (t <=? 580); [|destruct (t <=? 620)]; simpl; discriminate.
Qed.

End Derivation.

(** * The business flags and the looked-up values *)

Section FlagsAndValues.

Import Models Samples Api.

Variable self : FraudDetectionEngine.

Implicit Types (claim_data : gmap string string) (df : DataFrame).

(** The values of the five flags of a one-row frame of strings. *)
Lemma business_columns_values df v1 v2 v3 v4 v5 :
  index df = 1%nat ->
  get df "Days_Policy_Claim" = Some [Str v1] ->
  get df "VehiclePrice" = Some [Str v2] ->
  get df "AgeOfPolicyHolder" = Some [Str v3] ->
  get df "PolicyType" = Some [Str v4] ->
  get df "Make" = Some [Str v5] ->
  exists df', business_columns df = Ok df' /\
    get df' "Claim_Urgency" = Some (flag (String.eqb v1 "1 to 7")) /\
    get df' "Luxury_Vehicle" =
      Some (flag (existsb (String.eqb v2) ["60000 to 69000"; "more than 69000"])) /\
    get df' "Young_Driver" = Some (flag (existsb (String.eqb v3) ["18 to 20"; "21 to 25"])) /\
    get df' "Complex_Policy" = Some (flag (str_contains "All Perils" v4)) /\
    get df' "Premium_Make" = Some (flag (existsb (String.eqb v5) ["BMW"; "Mercedes"; "Audi"])).
Proof.
  intros Hi E1 E2 E3 E4 E5. unfold business_columns, get_or_str.
  rewrite E1. simpl.
  rewrite !get_set_series_ne by first [repeat apply index_set_series; assumption | discriminate].
  rewrite E2. simpl.
  rewrite !get_set_series_ne by first [repeat apply index_set_series; assumption | discriminate].
  rewrite E3. simpl.
  rewrite !get_set_series_ne by first [repeat apply index_set_series; assumption | discriminate].
  rewrite E4. simpl.
  rewrite !get_set_series_ne by first [repeat apply index_set_series; assumption | discriminate].
  rewrite E5. simpl.
  eexists. split; [reflexivity|].
  repeat split;
    repeat first
      [ rewrite get_set_series_eq by (repeat apply index_set_series; assumption)
      | rewrite get_set_series_ne
          by first [repeat apply index_set_series; assumption | discriminate] ];
    reflexivity.
Qed.

(** X10.  The business flags of the trained engine are the rules of the
    fallback engine and of the explainer: for a claim record with the
    fields that the flags read, each flag among the expected features is
    1 when its rule is triggered and 0 when it is not. *)
Theorem flags_follow_rules claim_data :
  Forall (fun ff => is_Some (claim_data !! ff.1)) flag_fields ->
  exists X,
    prepare_features self claim_data = Ok X /\
    forall name b,
      (name, b) ∈ flag_rules claim_data ->
      name ∈ feature_names self ->
      get X name = Some (flag b).
Proof.
  intros Hfields.
  destruct (prepare_features_Ok self claim_data Hfields) as (df & X & Hdf & HX & Hsel).
  exists X. split; [done|].
  pose proof (one_row_numeric_columns _ (one_row_frame_of_record claim_data)) as [Hi _].
  unfold flag_fields in Hfields.
  repeat match goal with
         | H : Forall _ (_ :: _) |- _ => apply Forall_cons_1 in H; destruct H as [[? ?] H]
         end.
  simpl in *.
  edestruct (business_columns_values (numeric_columns (frame_of_record claim_data)))
    as (df' & Hdf' & F1 & F2 & F3 & F4 & F5); [exact Hi|..].
  1-5: rewrite get_numeric_columns_other, get_frame_of_record by (done || not_among).
  1-5: match goal with E : _ !! ?k = Some _ |- context [_ !! ?k] =>
         rewrite E; reflexivity end.
  rewrite Hdf in Hdf'. injection Hdf' as <-.
  intros name b Hin Hname.
  unfold flag_rules, triggered in Hin.
  repeat match goal with E : _ !! _ = Some _ |- _ => rewrite E in Hin; clear E end.
  simpl in Hin.
  assert (one_row df) as [Hi' _].
  { eapply one_row_business_columns; [|exact Hdf].
    apply one_row_numeric_columns, one_row_frame_of_record. }
  apply (Hsel _ _ Hname). unfold woe_columns.
  repeat (apply elem_of_cons in Hin as [[= -> ->]|Hin]);
    try (rewrite get_woe_fold_not_woe by done; assumption).
  by apply elem_of_nil in Hin.
Qed.

End FlagsAndValues.

Section KnownValues.

Import Models Samples Api.

Variable self : FraudDetectionEngine.

Implicit Types (claim_data : gmap string string) (df : DataFrame).

(** No table of the category mapper holds NaN. *)
Lemma mapper_table_values t v x :
  t ∈ mapper_tables -> mt_mapping t !! v = Some x -> PrimFloat.is_nan x = false.
Proof.
  unfold mapper_tables. intros Ht Hx.
  repeat (apply elem_of_cons in Ht as [->|Ht]); [ .. | by apply elem_of_nil in Ht ];
    simpl in Hx; apply elem_of_list_to_map_2 in Hx;
    repeat (apply elem_of_cons in Hx as [[= -> ->]|Hx]); try reflexivity;
    by apply elem_of_nil in Hx.
Qed.

(** X11.  Known values go through the tables: for a claim record with
    the fields that the flags read, the numeric feature of a mapped
    field is the midpoint that its table gives for the value, and the
    [_WoE] feature of a categorical field is the weight that its table
    gives for the value (0.0 for a weight that is NaN). *)
Theorem known_values_are_looked_up claim_data :
  NoDup (dict_keys (woe_mappings self)) ->
  Forall (fun ff => is_Some (claim_data !! ff.1)) flag_fields ->
  exists X,
    prepare_features self claim_data = Ok X /\
    (forall t v x,
        t ∈ mapper_tables ->
        claim_data !! mt_field t = Some v ->
        mt_mapping t !! v = Some x ->
        mt_column t ∈ feature_names self ->
        get X (mt_column t) = Some [Num x]) /\
    (forall var woe_dict v w,
        var ∈ categorical_vars ->
        (var, woe_dict) ∈ woe_mappings self ->
        claim_data !! var = Some v ->
        woe_dict !! v = Some w ->
        String.append var "_WoE" ∈ feature_names self ->
        get X (String.append var "_WoE") =
          Some [Num (if PrimFloat.is_nan w then 0%float else w)]).
Proof.
  intros Hnd Hfields.
  destruct (prepare_features_Ok self claim_data Hfields) as (df & X & Hdf & HX & Hsel).
  destruct (derived_frame claim_data Hfields) as (df' & Hdf' & Hone & Hraw & Hnum).
  rewrite Hdf in Hdf'. injection Hdf' as <-.
  exists X. split; [done|]. split.
  - intros t v x Ht Hv Hx Hfeat.
    destruct (mapper_columns_raw t Ht) as (Hends & Hflag).
    apply (Hsel _ _ Hfeat). unfold woe_columns.
    rewrite get_woe_fold_not_woe; [|apply Hone|done].
    rewrite Hnum, get_numeric_column by done.
    unfold raw_column. rewrite Hv. simpl. rewrite Hx. simpl.
    by rewrite (mapper_table_values t v x).
  - intros var woe_dict v w Hvar Hin Hv Hw Hfeat.
    destruct (categorical_vars_raw var Hvar) as (Hends & Hflag & Hcol).
    apply (Hsel _ _ Hfeat). unfold woe_columns.
    rewrite (get_woe_fold _ _ var woe_dict); [|apply Hone|done..].
    rewrite Hraw by done. unfold raw_column. rewrite Hv. simpl.
    rewrite Hw. simpl. by destruct (PrimFloat.is_nan w).
Qed.

End KnownValues.

(** * The selection of the expected features *)

Section Selection.

Import Models Samples Api.

Variable self : FraudDetectionEngine.

Implicit Types (claim_data : gmap string string) (df X : DataFrame) (f g k : string).

Lemma prepare_features_derive claim_data :
  prepare_features self claim_data =
    (df ← derive self claim_data; Ok (select_features self df)).
Proof.
  unfold prepare_features, derive.
  by destruct (business_columns (numeric_columns (frame_of_record claim_data))).
Qed.

Lemma one_row_derive claim_data df : derive self claim_data = Ok df -> one_row df.
Proof.
  unfold derive.
  destruct (business_columns (numeric_columns (frame_of_record claim_data)))
    as [df0|] eqn:E; simpl; [|done].
  intros [= <-]. apply one_row_woe_fold.
  eapply one_row_business_columns; [|exact E].
  apply one_row_numeric_columns, one_row_frame_of_record.
Qed.

(** *** The names of the selected columns *)

Lemma dict_keys_set {V} k (v : V) (d : dict V) :
  dict_keys (dict_set k v d) =
    if bool_decide (k ∈ dict_keys d) then dict_keys d else dict_keys d ++ [k].
Proof.
  induction d as [|[k' v'] d IH]; simpl; [done|].
  destruct (String.eqb k' k) eqn:E.
  - apply String.eqb_eq in E. subst. simpl.
    rewrite bool_decide_eq_true_2; [done|left].
  - apply String.eqb_neq in E. simpl. rewrite IH. unfold dict_keys.
    destruct (bool_decide (k ∈ map fst d)) eqn:B.
    + apply bool_decide_eq_true in B. rewrite bool_decide_eq_true_2; [done|by right].
    + apply bool_decide_eq_false in B. rewrite bool_decide_eq_false_2; [done|].
      intros [?|?]%elem_of_cons; congruence.
Qed.

Lemma dict_keys_map_values {V W} (h : V -> W) (d : dict V) :
  dict_keys (map (fun kc => (kc.1, h kc.2)) d) = dict_keys d.
Proof. unfold dict_keys. rewrite map_map. by apply map_ext. Qed.

Lemma keys_select_step df X f :
  f ∉ dict_keys (columns X) ->
  dict_keys (columns (select_step df X f)) = dict_keys (columns X) ++ [f].
Proof.
  intros Hf. unfold select_step, set_series, set_scalar.
  destruct (get df f); simpl.
  - destruct ((index X =? 0)%nat && (0 <? length s)%nat); simpl;
      rewrite dict_keys_set, ?dict_keys_map_values, bool_decide_eq_false_2; done.
  - rewrite dict_keys_set, bool_decide_eq_false_2; done.
Qed.

Lemma keys_select_fold df l X :
  NoDup (dict_keys (columns X) ++ l) ->
  dict_keys (columns (fold_left (select_step df) l X)) = dict_keys (columns X) ++ l.
Proof.
  revert X. induction l as [|f l IH]; intros X Hnd; simpl; [by rewrite app_nil_r|].
  assert (f ∉ dict_keys (columns X)) as Hf.
  { apply NoDup_app in Hnd as (_ & Hdisj & _). intros Hin. apply (Hdisj f Hin). left. }
  rewrite IH; rewrite keys_select_step by done.
  - by rewrite <- app_assoc.
  - by rewrite <- app_assoc.
Qed.

(** X12.  The frame of features has exactly the expected features as its
    columns, in their order, whatever the claim record holds; the
    expected names are taken once each. *)
Theorem features_in_expected_order claim_data X :
  NoDup (feature_names self) ->
  prepare_features self claim_data = Ok X ->
  dict_keys (columns X) = feature_names self.
Proof.
  intros Hnd. rewrite prepare_features_derive.
  destruct (derive self claim_data) as [df|]; simpl; [|done].
  intros [= <-]. unfold select_features.
  by rewrite keys_select_fold.
Qed.

(** *** Features that the derivation does not produce *)

Lemma index_select_step_one df X g :
  index X = 1%nat -> index (select_step df X g) = 1%nat.
Proof.
  intros Hi. unfold select_step. destruct (get df g); [by apply index_set_series|done].
Qed.

(** With its row there, the frame keeps a column through the steps of
    other names. *)
Lemma select_fold_other df l X f :
  index X = 1%nat -> f ∉ l ->
  get (fold_left (select_step df) l X) f = get X f.
Proof.
  revert X. induction l as [|g l IH]; intros X Hi Hf; simpl; [done|].
  apply not_elem_of_cons in Hf as [Hne Hf].
  rewrite IH by (try apply index_select_step_one; done).
  unfold select_step. destruct (get df g).
  - by apply get_set_series_ne.
  - by apply get_set_scalar_ne.
Qed.

Lemma select_fold_zero_kept df l X f :
  index X = 1%nat -> get df f = None -> get X f = Some [Num 0%float] ->
  get (fold_left (select_step df) l X) f = Some [Num 0%float].
Proof.
  revert X. induction l as [|g l IH]; intros X Hi Hdf HX; simpl; [done|].
  apply IH; [by apply index_select_step_one|done|].
  unfold select_step. destruct (decide (g = f)) as [->|Hne].
  - rewrite Hdf. unfold get, set_scalar. simpl. rewrite Hi. apply dict_get_set_eq.
  - destruct (get df g).
    + by rewrite get_set_series_ne.
    + by rewrite get_set_scalar_ne.
Qed.

Lemma select_fold_zero df l X f :
  one_row df ->
  (index X = 0%nat \/ index X = 1%nat) ->
  f ∈ l -> get df f = None ->
  index X = 1%nat \/ Exists (fun g => is_Some (get df g)) (before f l) ->
  get (fold_left (select_step df) l X) f = Some [Num 0%float].
Proof.
  intros [Hdfi Hlen]. revert X.
  induction l as [|g l IH]; intros X HX Hin Hdf Hfirst; [by apply elem_of_nil in Hin|].
  simpl. destruct (String.eqb g f) eqn:E.
  - apply String.eqb_eq in E. subst g.
    simpl in Hfirst. rewrite String.eqb_refl in Hfirst.
    destruct Hfirst as [Hi|Hex]; [|by apply Exists_nil in Hex].
    apply select_fold_zero_kept; [by apply index_select_step_one|done|].
    unfold select_step. rewrite Hdf. unfold get, set_scalar. simpl. rewrite Hi.
    apply dict_get_set_eq.
  - pose proof E as Hne. apply String.eqb_neq in Hne.
    apply elem_of_cons in Hin as [->|Hin]; [done|].
    simpl in Hfirst. rewrite E in Hfirst.
    apply IH; try done.
    + by apply index_select_step.
    + destruct Hfirst as [Hi|Hex]; [left; by apply index_select_step_one|].
      apply Exists_cons in Hex as [[col Hcol]|Hex]; [|by right].
      left. unfold select_step. rewrite Hcol.
      apply set_series_first; [by eapply Hlen|done].
Qed.

(** X13.  An expected feature that the derivation does not produce is
    filled with 0, when a feature that comes before it in the expected
    order is produced. *)
Theorem missing_feature_is_zero claim_data df f :
  derive self claim_data = Ok df ->
  f ∈ feature_names self ->
  get df f = None ->
  Exists (fun g => is_Some (get df g)) (before f (feature_names self)) ->
  exists X, prepare_features self claim_data = Ok X /\ get X f = Some [Num 0%float].
Proof.
  intros Hdf Hf Hnone Hex. rewrite prepare_features_derive, Hdf. simpl.
  eexists. split; [reflexivity|]. unfold select_features.
  apply select_fold_zero; try done; [by eapply one_row_derive|by left|by right].
Qed.

Lemma dict_get_Forall {V} (P : V -> Prop) k v (d : dict V) :
  Forall (fun kc => P kc.2) d -> dict_get k d = Some v -> P v.
Proof.
  induction d as [|[k' v'] d IH]; simpl; [done|].
  intros [Hhd Htl]%Forall_cons_1. destruct (String.eqb k' k); [by intros [= <-]|by apply IH].
Qed.

Lemma no_rows_set_scalar X g c : no_rows X -> no_rows (set_scalar g c X).
Proof.
  intros [Hi Hall]. split; [done|]. unfold set_scalar. simpl. rewrite Hi. simpl.
  by apply Forall_dict_set.
Qed.

(** The first one-row series gives the frame its row, and NaN to the
    columns that were there. *)
Lemma get_set_series_no_rows X g c f :
  no_rows X -> g <> f -> is_Some (get X f) ->
  index (set_series g [c] X) = 1%nat /\ get (set_series g [c] X) f = Some [Num nan].
Proof.
  intros [Hi Hall] Hne [col Hcol]. unfold set_series, get in *. rewrite Hi. simpl.
  split; [done|]. rewrite dict_get_set_ne by done.
  rewrite (dict_get_map (reindex 1)), Hcol. simpl.
  by rewrite (dict_get_Forall (fun s => s = []) _ _ _ Hall Hcol).
Qed.

Lemma select_fold_nan_after df l X f :
  one_row df -> no_rows X -> is_Some (get X f) -> f ∉ l ->
  Exists (fun g => is_Some (get df g)) l ->
  get (fold_left (select_step df) l X) f = Some [Num nan].
Proof.
  intros [Hdfi Hlen]. revert X.
  induction l as [|g l IH]; intros X HX Hsome Hf Hex; [by apply Exists_nil in Hex|].
  apply not_elem_of_cons in Hf as [Hne Hf]. simpl.
  unfold select_step at 2. destruct (get df g) as [col|] eqn:E.
  - pose proof (Hlen _ _ E) as Hcol. destruct col as [|c [|]]; try done.
    destruct (get_set_series_no_rows X g c f) as [Hi Hget]; [done..|].
    by rewrite select_fold_other.
  - apply Exists_cons in Hex as [[col Hcol]|Hex]; [congruence|].
    apply IH; try done.
    + by apply no_rows_set_scalar.
    + by rewrite get_set_scalar_ne.
Qed.

Lemma select_fold_nan df l X f :
  one_row df -> no_rows X -> NoDup l ->
  f ∈ l -> get df f = None ->
  Forall (fun g => get df g = None) (before f l) ->
  Exists (fun g => is_Some (get df g)) l ->
  get (fold_left (select_step df) l X) f = Some [Num nan].
Proof.
  intros Hone. revert X.
  induction l as [|g l IH]; intros X HX Hnd Hin Hdf Hbefore Hex;
    [by apply elem_of_nil in Hin|].
  apply NoDup_cons in Hnd as [Hg Hnd]. simpl.
  simpl in Hbefore. destruct (String.eqb g f) eqn:E.
  - apply String.eqb_eq in E. subst g.
    apply Exists_cons in Hex as [[col Hcol]|Hex]; [congruence|].
    unfold select_step at 2. rewrite Hdf.
    apply (select_fold_nan_after df l _ f); try done.
    + by apply no_rows_set_scalar.
    + unfold get, set_scalar. simpl. rewrite dict_get_set_eq. eauto.
  - apply String.eqb_neq in E.
    apply elem_of_cons in Hin as [->|Hin]; [done|].
    apply Forall_cons_1 in Hbefore as [Hgnone Hbefore].
    apply Exists_cons in Hex as [[col Hcol]|Hex]; [congruence|].
    unfold select_step at 2. rewrite Hgnone.
    apply IH; try done. by apply no_rows_set_scalar.
Qed.

(** X14.  An expected feature that the derivation does not produce, and
    that comes before every produced one in the expected order, is not
    filled with 0: it holds NaN.  (The scalar 0 goes into a frame that
    has no row yet, and the row comes with the first produced
    feature.) *)
Theorem leading_missing_feature_is_nan claim_data df f :
  derive self claim_data = Ok df ->
  NoDup (feature_names self) ->
  f ∈ feature_names self ->
  get df f = None ->
  Forall (fun g => get df g = None) (before f (feature_names self)) ->
  Exists (fun g => is_Some (get df g)) (feature_names self) ->
  exists X, prepare_features self claim_data = Ok X /\ get X f = Some [Num nan].
Proof.
  intros Hdf Hnd Hf Hnone Hbefore Hex. rewrite prepare_features_derive, Hdf. simpl.
  eexists. split; [reflexivity|]. unfold select_features.
  apply select_fold_nan; try done;
    first [by eapply one_row_derive | split; [done|constructor]].
Qed.

End Selection.

(** * The names of a breakdown *)

Section Breakdown.

Import Models Samples.

Variable self : FraudDetectionEngine.

Implicit Types (X : DataFrame) (bd : dict Z).

Lemma NoDup_dict_set {V} k (v : V) (d : dict V) :
  NoDup (dict_keys d) -> NoDup (dict_keys (dict_set k v d)).
Proof.
  intros Hnd. rewrite dict_keys_set. case_bool_decide as Hk; [done|].
  apply NoDup_app. split; [done|]. split; [|apply NoDup_singleton].
  intros x Hx [->|[]%elem_of_nil]%elem_of_cons. done.
Qed.

Lemma scorecard_step_keys X rows total bd row total' bd' :
  scorecard_step X (total, bd) row = Ok (total', bd') ->
  breakdown_keys_ok rows X bd ->
  breakdown_keys_ok (rows ++ [row]) X bd'.
Proof.
  destruct row as [variable points]. unfold scorecard_step.
  intros Hstep [Hnd Hkeys].
  assert (breakdown_keys_ok (rows ++ [(variable, points)]) X bd) as Hsame.
  { split; [done|]. intros k Hk. destruct (Hkeys k Hk) as [->|(row & Hrow & ?)]; [by left|].
    right. exists row. split; [|done]. apply elem_of_app. by left. }
  destruct (get X variable) as [col|] eqn:E; [|by injection Hstep as <- <-].
  destruct (iloc0 col) as [value|]; simpl in Hstep; [|done].
  destruct (contribution_of value points) as [contribution|]; simpl in Hstep; [|done].
  destruct (PrimFloat.ltb _ _); [|by injection Hstep as <- <-].
  destruct (py_int contribution) as [c|]; simpl in Hstep; [|done].
  injection Hstep as <- <-. split; [by apply NoDup_dict_set|].
  intros k. rewrite dict_keys_set. case_bool_decide as Hin.
  - apply Hsame.
  - intros [Hk| ->%list_elem_of_singleton]%elem_of_app; [by apply Hsame|].
    right. exists (variable, points). split; [|simpl; rewrite E; eauto].
    apply elem_of_app. right. left.
Qed.

Lemma scorecard_fold_keys X rows0 rows total bd total' bd' :
  foldlM (scorecard_step X) (total, bd) rows = Ok (total', bd') ->
  breakdown_keys_ok rows0 X bd ->
  breakdown_keys_ok (rows0 ++ rows) X bd'.
Proof.
  revert rows0 total bd. induction rows as [|row rows IH]; intros rows0 total bd Hfold Hok.
  - injection Hfold as <- <-. by rewrite app_nil_r.
  - cbn [foldlM] in Hfold.
    destruct (scorecard_step X (total, bd) row) as [[total1 bd1]|] eqn:E; [|done].
    cbn in Hfold. rewrite (cons_middle row), app_assoc.
    eapply IH; [exact Hfold|]. by eapply scorecard_step_keys.
Qed.

Lemma calculate_scorecard_points_keys X t bd :
  calculate_scorecard_points self X = Ok (t, bd) ->
  breakdown_keys_ok (scorecard self) X bd.
Proof.
  unfold calculate_scorecard_points.
  destruct (py_int (base_points self)) as [b|]; simpl; [|done].
  destruct (foldlM _ _ _) as [[total bd']|] eqn:E; simpl; [|done].
  destruct (py_int total) as [t'|]; simpl; [|done].
  intros [= <- <-].
  apply (scorecard_fold_keys X [] _ _ _ _ _ E).
  split; [apply NoDup_singleton|].
  intros k [->|[]%elem_of_nil]%elem_of_cons. by left.
Qed.

Lemma mapper_display_names t :
  t ∈ mapper_tables ->
  display_name (mt_column t) = mt_field t /\
  display_name (String.append (mt_field t) "_WoE") = mt_field t.
Proof.
  unfold mapper_tables. intros Ht.
  repeat (apply elem_of_cons in Ht as [->|Ht]); try (split; reflexivity).
  by apply elem_of_nil in Ht.
Qed.

Lemma dict_entry_unique {V} k (v1 v2 : V) (d : dict V) :
  NoDup (dict_keys d) -> (k, v1) ∈ d -> (k, v2) ∈ d -> v1 = v2.
Proof.
  induction d as [|[k' v'] d IH]; simpl; intros Hnd H1 H2; [by apply elem_of_nil in H1|].
  apply NoDup_cons in Hnd as [Hk Hnd].
  apply elem_of_cons in H1 as [E1|H1]; apply elem_of_cons in H2 as [E2|H2].
  - congruence.
  - injection E1 as -> ->. exfalso. apply Hk. apply list_elem_of_fmap. by exists (k', v2).
  - injection E2 as -> ->. exfalso. apply Hk. apply list_elem_of_fmap. by exists (k', v1).
  - by apply IH.
Qed.

(** X15.  In a breakdown that the trained engine returns with a scored
    result, the names are distinct, and each is "Base Score" or the
    display name of a scorecard variable that is among the features.
    The [_WoE] feature and the [_Numeric] feature of a mapped field have
    the same display name, so the two share one entry of the
    breakdown. *)
Theorem breakdown_names claim_data r :
  try_score self claim_data = Ok r ->
  exists X,
    prepare_features self claim_data = Ok X /\
    breakdown_keys_ok (scorecard self) X (scorecard_breakdown r) /\
    forall t z1 z2,
      t ∈ mapper_tables ->
      (display_name (mt_column t), z1) ∈ scorecard_breakdown r ->
      (display_name (String.append (mt_field t) "_WoE"), z2) ∈ scorecard_breakdown r ->
      z1 = z2.
Proof.
  intros Hr.
  destruct (try_score_Ok self claim_data r Hr) as (X & HX & _ & _ & Hpoints & _).
  apply calculate_scorecard_points_keys in Hpoints.
  exists X. split; [done|]. split; [done|].
  intros t z1 z2 Ht H1 H2.
  destruct (mapper_display_names t Ht) as [E1 E2]. rewrite E1 in H1. rewrite E2 in H2.
  destruct Hpoints as [Hnd _]. by eapply dict_entry_unique.
Qed.

End Breakdown.

(** * The endpoints *)

Section Endpoints.

Import Models Samples.
Import Api Info.

Implicit Types (fraud_engine : engine) (claims : list ClaimData).

Lemma batch_fold fraud_engine claims (results0 : list ScoreResult) (high0 : Z) :
  fold_left (batch_step fraud_engine) claims (results0, high0) =
    (results0 ++ map (predict_fraud fraud_engine) claims,
     high0 + Z.of_nat (length (high_results (map (predict_fraud fraud_engine) claims)))).
Proof.
  revert results0 high0. induction claims as [|c claims IH]; intros results0 high0; simpl.
  - by rewrite app_nil_r, Z.add_0_r.
  - rewrite IH. unfold predict_fraud at 3. unfold high_results.
    rewrite <- app_assoc. simpl. f_equal.
    rewrite filter_cons.
    destruct (String.eqb (risk_level _) "HIGH") eqn:E.
    + apply String.eqb_eq in E. rewrite decide_True by done. simpl length. lia.
    + apply String.eqb_neq in E. rewrite decide_False by done. lia.
Qed.

(** X16.  A batch gets one result per claim, in the order of the
    claims, each the result of the claim alone; it counts every claim as
    processed, and as high risk the results whose level is HIGH. *)
Theorem predict_fraud_batch_results fraud_engine claims :
  let b := predict_fraud_batch fraud_engine claims in
  results b = map (predict_fraud fraud_engine) claims /\
  total_processed b = length claims /\
  high_risk_count b = Z.of_nat (length (high_results (results b))) /\
  0 <= high_risk_count b <= Z.of_nat (total_processed b).
Proof.
  cbv zeta. unfold predict_fraud_batch. rewrite batch_fold. simpl.
  split; [done|]. split; [by rewrite length_map|]. split; [done|].
  split; [lia|]. rewrite length_map. apply inj_le.
  unfold high_results. rewrite <- (length_map (predict_fraud fraud_engine) claims).
  apply length_filter.
Qed.

(** X17.  Scoring two batches one after the other is scoring them as
    one: the results concatenate, and the two counts add up. *)
Theorem predict_fraud_batch_app fraud_engine claims1 claims2 :
  let b := predict_fraud_batch fraud_engine (claims1 ++ claims2) in
  let b1 := predict_fraud_batch fraud_engine claims1 in
  let b2 := predict_fraud_batch fraud_engine claims2 in
  results b = results b1 ++ results b2 /\
  total_processed b = (total_processed b1 + total_processed b2)%nat /\
  high_risk_count b = high_risk_count b1 + high_risk_count b2.
Proof.
  cbv zeta. unfold predict_fraud_batch. rewrite !batch_fold. simpl.
  rewrite map_app. unfold high_results. rewrite filter_app, !length_app.
  split; [done|]. split; [done|lia].
Qed.

(** X18.  The trained engine serves exactly when the module of the
    engine was imported, each of the five artifact files exists and the
    engine loaded without raising; in every other case the fallback
    engine serves. *)
Theorem initialize_trained ENGINE_AVAILABLE path_exists load :
  match initialize ENGINE_AVAILABLE path_exists load with
  | Trained self =>
      ENGINE_AVAILABLE = true /\
      Forall (fun file => path_exists file = true) required_files /\
      load = Ok self
  | Fallback =>
      ENGINE_AVAILABLE = false \/
      Exists (fun file => path_exists file = false) required_files \/
      is_Raise load
  end.
Proof.
  unfold initialize, missing_files, required_files.
  destruct ENGINE_AVAILABLE; [|by left]. simpl.
  destruct (path_exists "logistic_model.pkl") eqn:E1;
  destruct (path_exists "xgb_model.pkl") eqn:E2;
  destruct (path_exists "woe_mappings.pkl") eqn:E3;
  destruct (path_exists "scorecard.pkl") eqn:E4;
  destruct (path_exists "metadata.pkl") eqn:E5; simpl;
    try (right; left;
         repeat first [ apply Exists_cons_hd; assumption | apply Exists_cons_tl ]).
  destruct load as [self|e]; [|right; right; by exists e].
  split; [done|]. split; [by repeat constructor|done].
Qed.

(** X19.  The metrics of [/model/info] are fixed: for the trained
    engine, whatever AUCs its metadata holds and however many features
    it has, as for the fallback engine, the response reports the AUC
    0.847, the same four other metrics, 15 features and the update date
    2025-07-06; only the type and the version tell the engines apart. *)
Theorem model_info_metrics fraud_engine metadata :
  exists m,
    model_info (engine_info fraud_engine metadata) = Ok m /\
    performance_metrics m =
      [("auc", 0.847%float); ("precision_at_10_percent", 0.623%float);
       ("ks_statistic", 0.412%float); ("recall", 0.78%float);
       ("f1_score", 0.69%float)] /\
    features_count m = 15 /\
    last_updated m = "2025-07-06" /\
    version m = match fraud_engine with
                | Trained _ => "1.0.0"
                | Fallback => "1.0.0-fallback"
                end.
Proof.
  destruct fraud_engine as [self|]; eexists; (split; [reflexivity|]); by repeat split.
Qed.

Lemma filter_disjoint_length {A} (P Q : A -> Prop)
    `{!forall x, Decision (P x)} `{!forall x, Decision (Q x)} (l : list A) :
  (forall x, P x -> Q x -> False) ->
  (length (filter P l) + length (filter Q l) <= length l)%nat.
Proof.
  intros Hdisj. induction l as [|x l IH]; simpl; [done|].
  rewrite !filter_cons.
  destruct (decide (P x)) as [HP|HP]; destruct (decide (Q x)) as [HQ|HQ]; simpl; try lia.
  by destruct (Hdisj x).
Qed.

(** X20.  In the description of the trained engine, the count of the
    [_WoE] features and the count of the business features are counts of
    different features: together they do not exceed the total. *)
Theorem feature_counts (self : FraudDetectionEngine) :
  (woe_features self + business_features self <= total_features self)%nat.
Proof.
  unfold woe_features, business_features, total_features.
  apply filter_disjoint_length.
  intros f Hwoe Hflag. unfold business_flag_names in Hflag. simpl in Hflag.
  repeat match type of Hflag with
         | (String.eqb f ?s || _) = true =>
             let E := fresh "E" in
             destruct (String.eqb f s) eqn:E;
             [ apply String.eqb_eq in E; subst f; vm_compute in Hwoe; discriminate Hwoe
             | simpl in Hflag ]
         end.
  discriminate Hflag.
Qed.

End Endpoints.

(** * The predictors and the scorecard *)

Section Predictors.

Import Models.

Lemma explainer_ignores_probability claim_data (p q : float) :
  count_true (triggered claim_data) <> 0%nat ->
  identify_risk_factors claim_data p = identify_risk_factors claim_data q.
Proof.
  unfold identify_risk_factors, triggered. abstract_rules claim_data.
  intros [] [] [] [] [] [] Hn;
    first [ exfalso; apply Hn; reflexivity | vm_compute; reflexivity ].
Qed.

(** X21.  The predictors only set the probability: two trained engines
    with the same tables, scorecard and expected features, whose
    predictors may differ, give a claim that both score the same score,
    level, confidence, breakdown and recommendation; and the same risk
    factors when a rule is triggered. *)
Theorem predictors_only_set_probability self1 self2 claim_data r1 r2 :
  woe_mappings self1 = woe_mappings self2 ->
  scorecard self1 = scorecard self2 ->
  base_points self1 = base_points self2 ->
  feature_names self1 = feature_names self2 ->
  try_score self1 claim_data = Ok r1 ->
  try_score self2 claim_data = Ok r2 ->
  risk_score r1 = risk_score r2 /\
  risk_level r1 = risk_level r2 /\
  confidence r1 = confidence r2 /\
  scorecard_breakdown r1 = scorecard_breakdown r2 /\
  business_recommendation r1 = business_recommendation r2 /\
  (count_true (triggered claim_data) <> 0%nat ->
   key_risk_factors r1 = key_risk_factors r2).
Proof.
  intros Hwoe Hcard Hbase Hnames H1 H2.
  assert (HX : prepare_features self1 claim_data = prepare_features self2 claim_data).
  { unfold prepare_features, woe_columns, select_features. by rewrite Hwoe, Hnames. }
  assert (Hpoints : forall X,
             calculate_scorecard_points self1 X = calculate_scorecard_points self2 X).
  { intros X. unfold calculate_scorecard_points. by rewrite Hbase, Hcard. }
  unfold try_score in H1, H2. rewrite HX in H1.
  destruct (prepare_features self2 claim_data) as [X|]; [|discriminate H1].
  simpl in H1, H2. rewrite Hpoints in H1.
  destruct (logistic_model self1 X) as [p1|]; [|discriminate H1].
  destruct (xgb_model self1 X) as [q1|]; [|discriminate H1].
  destruct (logistic_model self2 X) as [p2|]; [|discriminate H2].
  destruct (xgb_model self2 X) as [q2|]; [|discriminate H2].
  simpl in H1, H2.
  destruct (calculate_scorecard_points self2 X) as [[score bd]|]; [|discriminate H1].
  simpl in H1, H2.
  destruct (score <=? 580); [|destruct (score <=? 620)];
    injection H1 as <-; injection H2 as <-; simpl;
    (repeat split; try reflexivity);
    apply explainer_ignores_probability.
Qed.

End Predictors.

(** * The properties on the sample engines *)

Section OnMoreSamples.

Import Models Samples.

Lemma flags_follow_rules_witness :
  exists X,
    prepare_features engine test_claim = Ok X /\
    get X "Claim_Urgency" = Some (flag true).
Proof.
  destruct (flags_follow_rules engine test_claim) as (X & HX & Hflags).
  - repeat constructor; vm_compute; eauto.
  - exists X. split; [exact HX|].
    apply (Hflags "Claim_Urgency" true); vm_compute; repeat constructor.
Defined.

Lemma known_values_are_looked_up_witness :
  exists X,
    prepare_features engine test_claim = Ok X /\
    get X "AgeOfPolicyHolder_Numeric" = Some [Num 23%float] /\
    get X "Make_WoE" = Some [Num 0.75%float].
Proof.
  destruct (known_values_are_looked_up engine test_claim) as (X & HX & Hmap & Hwoe).
  - simpl. repeat (constructor; [not_among|]). constructor.
  - repeat constructor; vm_compute; eauto.
  - exists X. split; [exact HX|]. split.
    + apply (Hmap (mkMapperTable "AgeOfPolicyHolder" "AgeOfPolicyHolder_Numeric"
                     age_mapping 35%float) "21 to 25");
        [repeat constructor | reflexivity | reflexivity | repeat constructor].
    + eapply (Hwoe "Make" _ "BMW" 0.75%float);
        [repeat constructor | repeat constructor | reflexivity | reflexivity
        | repeat constructor].
Defined.

Lemma features_in_expected_order_witness :
  exists X,
    prepare_features engine test_claim = Ok X /\
    dict_keys (columns X) = feature_names engine.
Proof.
  assert (H : exists X, prepare_features engine test_claim = Ok X)
    by (vm_compute; eauto).
  destruct H as [X HX]. exists X. split; [exact HX|].
  apply (features_in_expected_order engine test_claim X); [|exact HX].
  simpl. repeat (constructor; [not_among|]). constructor.
Defined.

Lemma missing_feature_is_zero_witness :
  exists X,
    prepare_features engine (without "AccidentArea") = Ok X /\
    get X "AccidentArea_WoE" = Some [Num 0%float].
Proof.
  assert (H : exists df,
             derive engine (without "AccidentArea") = Ok df /\
             get df "AccidentArea_WoE" = None /\
             is_Some (get df "Make_WoE"))
    by (vm_compute; eauto).
  destruct H as (df & Hdf & Hnone & Hsome).
  apply (missing_feature_is_zero engine (without "AccidentArea") df "AccidentArea_WoE");
    [exact Hdf | simpl; repeat constructor | exact Hnone |].
  simpl. apply Exists_cons_hd. exact Hsome.
Defined.

Lemma leading_missing_feature_is_nan_witness :
  (exists X,
      prepare_features engine_area_first (without "AccidentArea") = Ok X /\
      get X "AccidentArea_WoE" = Some [Num nan]) /\
  risk_level (calculate_fraud_score engine_area_first (without "AccidentArea")) = "ERROR".
Proof.
  split; [|reflexivity].
  assert (H : exists df,
             derive engine_area_first (without "AccidentArea") = Ok df /\
             get df "AccidentArea_WoE" = None /\
             is_Some (get df "Make_WoE"))
    by (vm_compute; eauto).
  destruct H as (df & Hdf & Hnone & Hsome).
  apply (leading_missing_feature_is_nan engine_area_first (without "AccidentArea") df
           "AccidentArea_WoE");
    [exact Hdf | | simpl; repeat constructor | exact Hnone | simpl; constructor |].
  - simpl. repeat (constructor; [not_among|]). constructor.
  - simpl. apply Exists_cons_tl, Exists_cons_hd. exact Hsome.
Defined.

Lemma breakdown_names_witness :
  exists r,
    try_score engine test_claim = Ok r /\
    NoDup (dict_keys (scorecard_breakdown r)).
Proof.
  assert (H : exists r, try_score engine test_claim = Ok r) by (vm_compute; eauto).
  destruct H as [r Hr]. exists r. split; [exact Hr|].
  destruct (breakdown_names engine test_claim r Hr) as (X & _ & [Hnodup _] & _).
  exact Hnodup.
Defined.

Lemma predictors_only_set_probability_witness :
  exists r1 r2,
    try_score engine test_claim = Ok r1 /\
    try_score engine_other_models test_claim = Ok r2 /\
    risk_score r1 = risk_score r2 /\
    risk_level r1 = risk_level r2.
Proof.
  assert (H1 : exists r, try_score engine test_claim = Ok r) by (vm_compute; eauto).
  assert (H2 : exists r, try_score engine_other_models test_claim = Ok r)
    by (vm_compute; eauto).
  destruct H1 as [r1 H1], H2 as [r2 H2]. exists r1, r2.
  split; [exact H1|]. split; [exact H2|].
  destruct (predictors_only_set_probability engine engine_other_models test_claim r1 r2)
    as (Hscore & Hlevel & _); try reflexivity; try assumption.
  by split.
Defined.

End OnMoreSamples.
